(** * Multi-task training wrapper: routing, taps, optimiser, checkpoints

    A shallow embedding of [model_lightning.py]: the [Hook] class that taps
    a sub-module's output, the [CheckpointEveryNSteps] callback, and the
    [Model_Lightning] wrapper with its training / validation / test steps
    and its optimiser configuration.

    Python objects that are mutated in place (a hook's [output], the metric
    log, the trainer's checkpoint store) are threaded explicitly; a raised
    exception is the left summand of the result and keeps the mutations made
    before it. Everything the file imports from the tensor framework
    (forward pass, cross entropy, alignment losses) is a field of the
    [Framework] class. Calls to [print] are left out. *)

From Stdlib Require Import QArith Ascii String.
From stdpp Require Import base option list strings gmap pretty.

Local Open Scope Z_scope.

(** ** Exceptions *)

Inductive pyexc :=
| IndexError
| KeyError (key : string)
| TypeError
| NameError (name : string)
| ZeroDivisionError
| ValueError (msg : string).

Definition result (A : Type) : Type := pyexc + A.

Definition is_ok {A} (r : result A) : bool :=
  match r with inr _ => true | inl _ => false end.

(** ** [class Hook] *)

Module Hook.
Section WithTensor.
Context {T : Type}.

(** The attribute [hook] is the handle returned by the registration; what
    the embedding keeps of it is the direction it was registered for. *)
Inductive handle := ForwardHandle (m : string) | BackwardHandle (m : string).

Record t := { hook : handle; output : option T }.

(** [__init__(self, module, backward=False)] *)
Definition init (module : string) (backward : bool) : t :=
  {| hook := if backward then BackwardHandle module else ForwardHandle module;
     output := None |}.

(** [hook_fn(self, module, input, output)]: [self.output = output]. *)
Definition hook_fn (self : t) (module : string) (input out : T) : t :=
  {| hook := hook self; output := Some out |}.

(** The attached module runs once for every element of [calls], each
    time handing its input and output to [hook_fn]. *)
Definition fire (module : string) (self : t) (calls : list (T * T)) : t :=
  foldl (fun h c => hook_fn h module (fst c) (snd c)) self calls.

End WithTensor.
Arguments t : clear implicits.
Arguments handle : clear implicits.
End Hook.

(** ** [class CheckpointEveryNSteps] *)

Module Checkpoint.

(** [trainer.checkpoint_callback] *)
Record ModelCheckpoint := { filename : string; dirpath : string }.

(** The part of [pl.Trainer] the callback reads, and the store that
    [trainer.save_checkpoint] writes to (paths in the order written). *)
Record Trainer := {
  current_epoch : Z;
  global_step : Z;
  checkpoint_callback : ModelCheckpoint;
  saved : list string
}.

Record CheckpointEveryNSteps := {
  save_step_frequency : Z;
  prefix : string;
  use_modelcheckpoint_filename : bool
}.

(** [__init__(self, save_step_frequency, prefix="N-Step-Checkpoint",
    use_modelcheckpoint_filename=True)] *)
Definition init (freq : Z) (pfx : option string) (use_mc : option bool)
  : CheckpointEveryNSteps :=
  {| save_step_frequency := freq;
     prefix := default "N-Step-Checkpoint"%string pfx;
     use_modelcheckpoint_filename := default true use_mc |}.

Definition starts_with_slash (s : string) : bool :=
  match s with String c _ => bool_decide (c = "/"%char) | EmptyString => false end.

Fixpoint ends_with_slash (s : string) : bool :=
  match s with
  | EmptyString => false
  | String c EmptyString => bool_decide (c = "/"%char)
  | String _ s' => ends_with_slash s'
  end.

(** [os.path.join(a, b)] on a POSIX path. *)
Definition path_join (a b : string) : string :=
  if starts_with_slash b then b
  else if bool_decide (a = ""%string) || ends_with_slash a then (a +:+ b)%string
  else (a +:+ "/" +:+ b)%string.

Definition save_checkpoint (trainer : Trainer) (ckpt_path : string) : Trainer :=
  {| current_epoch := current_epoch trainer;
     global_step := global_step trainer;
     checkpoint_callback := checkpoint_callback trainer;
     saved := saved trainer ++ [ckpt_path] |}.

(** The name the callback gives the checkpoint it writes. *)
Definition ckpt_path (self : CheckpointEveryNSteps) (trainer : Trainer) : string :=
  let epoch := current_epoch trainer in
  let global_step := global_step trainer in
  let filename :=
    if use_modelcheckpoint_filename self
    then filename (checkpoint_callback trainer)
    else (prefix self +:+ "_" +:+ pretty epoch +:+ "_" +:+ pretty global_step
          +:+ ".ckpt")%string in
  path_join (dirpath (checkpoint_callback trainer)) filename.

(** [on_batch_end(self, trainer, _)]. Python's [%] on integers takes the
    sign of the divisor, as [Z.modulo] does, and raises on a zero
    divisor. *)
Definition on_batch_end (self : CheckpointEveryNSteps) (trainer : Trainer)
  : result Trainer :=
  if bool_decide (save_step_frequency self = 0) then inl ZeroDivisionError
  else if bool_decide (global_step trainer `mod` save_step_frequency self = 0)
  then inr (save_checkpoint trainer (ckpt_path self trainer))
  else inr trainer.

(** The orchestrator completes the steps numbered [steps] one after the
    other and calls the callback once after each. *)
Definition at_step (trainer : Trainer) (k : Z) : Trainer :=
  {| current_epoch := current_epoch trainer;
     global_step := k;
     checkpoint_callback := checkpoint_callback trainer;
     saved := saved trainer |}.

Fixpoint run_steps (self : CheckpointEveryNSteps) (trainer : Trainer)
    (steps : list Z) : result Trainer :=
  match steps with
  | [] => inr trainer
  | k :: steps' =>
      match on_batch_end self (at_step trainer k) with
      | inl e => inl e
      | inr trainer' => run_steps self trainer' steps'
      end
  end.

End Checkpoint.

#[global] Instance Z_divide_dec : RelDecision Z.divide.
Proof.
  intros a b. destruct (decide (a = 0)) as [->|Ha].
  - destruct (decide (b = 0)) as [->|Hb].
    + left. apply Z.divide_0_r.
    + right. intros Hd. apply Z.divide_0_l in Hd. contradiction.
  - destruct (decide (b `mod` a = 0)) as [Hm|Hm].
    + left. apply Z.mod_divide; assumption.
    + right. intros Hd. apply Hm. apply Z.mod_divide; assumption.
Defined.

(** ** Batches *)

(** The value [batch_[0][0]] that the router compares: a Python string or
    a Python list of strings. [==] between a [str] and a [list] is [False];
    two strings, or two lists, are equal when they are the same. *)
Inductive tagval := TagStr (s : string) | TagList (l : list string).

#[global] Instance tagval_eq_dec : EqDecision tagval.
Proof. solve_decision. Defined.

Definition py_eq (a b : tagval) : bool := bool_decide (a = b).

(** [seq[i]] for a non-negative index. *)
Definition getitem {A} (seq : list A) (i : nat) : result A :=
  match seq !! i with
  | Some x => inr x
  | None => inl IndexError
  end.

(** [enumerate(seq)] *)
Definition enumerate {A} (seq : list A) : list (nat * A) := imap pair seq.

(** ** [argparse.Namespace] of hyperparameters *)

Module Namespace.
Record t := {
  v_num : option Z;
  arch : string;
  regions : list string;
  neural_loss : string;
  loss_weights : list Q;
  image_size : Z;
  epochs : Z;
  batch_size : Z;
  scheduler : string;
  lr : Q;
  step_size : Z;
  momentum : Q;
  weight_decay : Q;
  optim : string;
  pretrained : bool;
  record_time : bool;
  verbose : bool
}.

Definition with_momentum (m : Q) (h : t) : t :=
  {| v_num := v_num h; arch := arch h; regions := regions h;
     neural_loss := neural_loss h; loss_weights := loss_weights h;
     image_size := image_size h; epochs := epochs h;
     batch_size := batch_size h; scheduler := scheduler h; lr := lr h;
     step_size := step_size h; momentum := m;
     weight_decay := weight_decay h; optim := optim h;
     pretrained := pretrained h; record_time := record_time h;
     verbose := verbose h |}.

Definition with_optim (o : string) (h : t) : t :=
  {| v_num := v_num h; arch := arch h; regions := regions h;
     neural_loss := neural_loss h; loss_weights := loss_weights h;
     image_size := image_size h; epochs := epochs h;
     batch_size := batch_size h; scheduler := scheduler h; lr := lr h;
     step_size := step_size h; momentum := momentum h;
     weight_decay := weight_decay h; optim := o;
     pretrained := pretrained h; record_time := record_time h;
     verbose := verbose h |}.

Definition with_scheduler (s : string) (h : t) : t :=
  {| v_num := v_num h; arch := arch h; regions := regions h;
     neural_loss := neural_loss h; loss_weights := loss_weights h;
     image_size := image_size h; epochs := epochs h;
     batch_size := batch_size h; scheduler := s; lr := lr h;
     step_size := step_size h; momentum := momentum h;
     weight_decay := weight_decay h; optim := optim h;
     pretrained := pretrained h; record_time := record_time h;
     verbose := verbose h |}.

Definition with_loss_weights (w : list Q) (h : t) : t :=
  {| v_num := v_num h; arch := arch h; regions := regions h;
     neural_loss := neural_loss h; loss_weights := w;
     image_size := image_size h; epochs := epochs h;
     batch_size := batch_size h; scheduler := scheduler h; lr := lr h;
     step_size := step_size h; momentum := momentum h;
     weight_decay := weight_decay h; optim := optim h;
     pretrained := pretrained h; record_time := record_time h;
     verbose := verbose h |}.

Definition with_lr (r : Q) (h : t) : t :=
  {| v_num := v_num h; arch := arch h; regions := regions h;
     neural_loss := neural_loss h; loss_weights := loss_weights h;
     image_size := image_size h; epochs := epochs h;
     batch_size := batch_size h; scheduler := scheduler h; lr := r;
     step_size := step_size h; momentum := momentum h;
     weight_decay := weight_decay h; optim := optim h;
     pretrained := pretrained h; record_time := record_time h;
     verbose := verbose h |}.

Definition with_weight_decay (wd : Q) (h : t) : t :=
  {| v_num := v_num h; arch := arch h; regions := regions h;
     neural_loss := neural_loss h; loss_weights := loss_weights h;
     image_size := image_size h; epochs := epochs h;
     batch_size := batch_size h; scheduler := scheduler h; lr := lr h;
     step_size := step_size h; momentum := momentum h;
     weight_decay := wd; optim := optim h;
     pretrained := pretrained h; record_time := record_time h;
     verbose := verbose h |}.

Definition with_neural_loss (k : string) (h : t) : t :=
  {| v_num := v_num h; arch := arch h; regions := regions h;
     neural_loss := k; loss_weights := loss_weights h;
     image_size := image_size h; epochs := epochs h;
     batch_size := batch_size h; scheduler := scheduler h; lr := lr h;
     step_size := step_size h; momentum := momentum h;
     weight_decay := weight_decay h; optim := optim h;
     pretrained := pretrained h; record_time := record_time h;
     verbose := verbose h |}.

(** The defaults of [add_model_specific_args]; [v_num] has none, and
    [verbose] comes from the parent parser. *)
Definition defaults : t :=
  {| v_num := None; arch := "cornet_s"; regions := ["IT"%string];
     neural_loss := "CKA"; loss_weights := [1%Q; 1%Q];
     image_size := 224; epochs := 25; batch_size := 96;
     scheduler := "ExponentialLR"; lr := (1 # 10)%Q; step_size := 50;
     momentum := (9 # 10)%Q; weight_decay := (1 # 10000)%Q;
     optim := "sgd"; pretrained := true; record_time := false;
     verbose := false |}.
End Namespace.

(** ** The tensor framework and the modules the file imports *)

(** The two classes of [braintree.losses] that [neural_losses] names. *)
Inductive alignment_loss := CenteredKernelAlignment | LogCenteredKernelAlignment.

Class Framework := {
  tensor : Type;
  (** a loss value; [szero] is the integer 0 that [sum] starts from,
      [sadd] is [+] and [smul] is a Python float times a loss *)
  scalar : Type;
  szero : scalar;
  sadd : scalar -> scalar -> scalar;
  smul : Q -> scalar -> scalar;
  (** [nn.Module] and the positional / keyword arguments of a factory *)
  network : Type;
  pyobj : Type;
  params : Type;
  parameters : network -> params;
  (** whether a parameter list has no parameter in it *)
  params_empty : params -> bool;
  _modules : network -> gmap string network;
  (** [models_dict] and the names of it that come from [custom_models] *)
  models_dict : gmap string (bool -> list pyobj -> gmap string pyobj -> result network);
  custom_models : gset string;
  (** calling the network on a tensor or on a list of source tags: the
      hooked sub-modules that ran, each with its input and output, in
      order, and the outcome of the call *)
  forward : network -> tensor + list tagval -> list (string * tensor * tensor) * result tensor;
  cross_entropy : tensor -> tensor -> result scalar;
  (** [output.topk(maxk, ...)] compared with the target: for each [k], the
      value of [correct[:k].sum().item()] *)
  topk_correct : tensor -> tensor -> Z -> result (Z -> Z);
  shape0 : tensor -> Z;
  (** calling an alignment loss on [(Y, Y_hat)], and its [name] *)
  alignment : alignment_loss -> tensor * tensor -> option tensor -> result scalar;
  alignment_name : alignment_loss -> string
}.

(** ** [class Model_Lightning] *)

Section Model_Lightning.
Context `{Framework}.

(** One element of a training batch: [batch_[0]] holds the source tags
    of its samples, [batch_[1]] the pair [(X, Y)]. *)
Record sub_batch := { sources : list tagval; data : tensor * tensor }.

(** A dictionary handed to [log_dict] with its flags. *)
Inductive metric_value := Loss (v : scalar) | Ratio (q : Q).

Record log_call := {
  log : list (string * metric_value);
  on_step : bool;
  on_epoch : bool;
  prog_bar : bool;
  logger : bool
}.

(** [optim.SGD(...)], [lr_scheduler.StepLR(...)] and the dictionary that
    wraps the latter, as the arguments they are built from. *)
Record SGD := {
  sgd_params : params;
  sgd_lr : Q;
  sgd_weight_decay : Q;
  sgd_momentum : Q;
  sgd_nesterov : bool
}.

Record StepLR := { steplr_optimizer : SGD; steplr_step_size : Z }.

Record scheduler_dict := { scheduler : StepLR; interval : string }.

(** The attributes [__init__] sets that stay fixed afterwards. *)
Record Model_Lightning := {
  hparams : Namespace.t;
  record_time : bool;
  loss_weights : list Q;
  model : network;
  neural_loss : alignment_loss
}.

(** What a step mutates: the tap table [self.regions] (the hooks' stored
    outputs) and the calls made to [log_dict]. *)
Record mstate := {
  regions : gmap string (Hook.t tensor);
  logged : list log_call
}.

Definition M (A : Type) : Type := mstate -> result A * mstate.

#[local] Instance M_ret : MRet M := fun A x st => (inr x, st).
#[local] Instance M_bind : MBind M := fun A B f c st =>
  match c st with
  | (inl e, st') => (inl e, st')
  | (inr x, st') => f x st'
  end.

Definition lift {A} (r : result A) : M A := fun st => (r, st).
Definition raise {A} (e : pyexc) : M A := fun st => (inl e, st).

(** [neural_losses] *)
Definition neural_losses : gmap string alignment_loss :=
  <["logCKA"%string := LogCenteredKernelAlignment]>
    (<["CKA"%string := CenteredKernelAlignment]> ∅).

(** [get_model(arch, pretrained, *args, **kwargs)] *)
Definition dict_remove_none (kwargs : gmap string (option pyobj)) : gmap string pyobj :=
  omap id kwargs.

Definition get_model (arch : string) (pretrained : bool) (args : list pyobj)
    (kwargs : gmap string (option pyobj)) : result network :=
  match models_dict !! arch with
  | None => inl (KeyError arch)
  | Some model_arch =>
      let kwargs := if bool_decide (arch ∈ custom_models)
                    then dict_remove_none kwargs else ∅ in
      model_arch pretrained args kwargs
  end.

(** [hook_layers]: the dictionary comprehension over
    [self.hparams.regions]; a later duplicate replaces an earlier entry. *)
Fixpoint hook_regions (model : network) (names : list string)
    (layer_hooks : gmap string (Hook.t tensor))
  : result (gmap string (Hook.t tensor)) :=
  match names with
  | [] => inr layer_hooks
  | region :: names' =>
      match _modules model !! "module"%string with
      | None => inl (KeyError "module")
      | Some inner =>
          match _modules inner !! region with
          | None => inl (KeyError region)
          | Some _ =>
              hook_regions model names'
                (<[region := Hook.init region false]> layer_hooks)
          end
      end
  end.

Definition hook_layers (model : network) (hparams : Namespace.t)
  : result (gmap string (Hook.t tensor)) :=
  hook_regions model (Namespace.regions hparams) ∅.

(** The names a further keyword of the constructor call cannot have:
    [self] and [hparams] are parameters of [__init__], [pretrained] and
    [arch] are parameters of [get_model] that the call in [__init__]
    gives. *)
Definition parameter_names : list string :=
  ["self"; "hparams"; "pretrained"; "arch"]%string.

Definition names_parameter (kwargs : gmap string (option pyobj)) : bool :=
  bool_decide (Exists (fun key => is_Some (kwargs !! key)) parameter_names).

(** Binding the call [get_model(hparams.arch, pretrained=..., *args,
    **kwargs)] to the parameters [(arch, pretrained, *args, **kwargs)] of
    [get_model]: a positional argument after [hparams.arch] takes the place
    of [pretrained], which is also given by keyword, and a keyword that
    names a parameter gives that parameter twice. Each is a [TypeError],
    raised before the body of [get_model] runs. What is left for [*args]
    is empty. *)
Definition bind_get_model (args : list pyobj) (kwargs : gmap string (option pyobj))
  : result (list pyobj * gmap string (option pyobj)) :=
  match args with
  | _ :: _ => inl TypeError
  | [] => if names_parameter kwargs then inl TypeError else inr ([], kwargs)
  end.

(** [__init__(self, hparams, *args, **kwargs)] *)
Definition init (hparams : Namespace.t) (args : list pyobj)
    (kwargs : gmap string (option pyobj)) : result (Model_Lightning * mstate) :=
  match bind_get_model args kwargs with
  | inl e => inl e
  | inr (args, kwargs) =>
  match get_model (Namespace.arch hparams) (Namespace.pretrained hparams) args kwargs with
  | inl e => inl e
  | inr model =>
      match hook_layers model hparams with
      | inl e => inl e
      | inr regions =>
          match neural_losses !! Namespace.neural_loss hparams with
          | None => inl (KeyError (Namespace.neural_loss hparams))
          | Some cls =>
              inr ({| hparams := hparams;
                      record_time := Namespace.record_time hparams;
                      loss_weights := Namespace.loss_weights hparams;
                      model := model;
                      neural_loss := cls |},
                   {| regions := regions; logged := [] |})
          end
      end
  end
  end.

(** [self.model(X)]: every hooked sub-module that runs stores its output
    in its hook. *)
Definition fire_taps (taps : gmap string (Hook.t tensor))
    (calls : list (string * tensor * tensor)) : gmap string (Hook.t tensor) :=
  foldl (fun m '(name, input, out) =>
           alter (fun h => Hook.hook_fn h name input out) name m) taps calls.

Definition call_model (self : Model_Lightning) (X : tensor + list tagval) : M tensor :=
  fun st =>
    let '(calls, r) := forward (model self) X in
    (r, {| regions := fire_taps (regions st) calls; logged := logged st |}).

Definition log_dict (entries : list (string * metric_value))
    (on_step on_epoch prog_bar logger : bool) : M unit :=
  fun st =>
    (inr tt,
     {| regions := regions st;
        logged := logged st ++
          [{| log := entries; on_step := on_step; on_epoch := on_epoch;
              prog_bar := prog_bar; logger := logger |}] |}).

(** [__accuracy(output, target, topk)] *)
Definition accuracy (output target : tensor) (topk : list Z) : result (list Q) :=
  match topk with
  | [] => inl (ValueError "max() arg is an empty sequence")
  | k0 :: ks =>
      match topk_correct output target (foldl Z.max k0 ks) with
      | inl e => inl e
      | inr correct =>
          let total := shape0 output in
          if bool_decide (total = 0) then inl ZeroDivisionError
          else inr ((fun k => (inject_Z (correct k) / inject_Z total)%Q) <$> topk)
      end
  end.

(** [classification(self, batch, mode)] *)
Definition classification (self : Model_Lightning) (batch : tensor * tensor)
    (mode : string) : M scalar :=
  let '(X, Y) := batch in
  Y_hat ← call_model self (inl X);
  loss ← lift (cross_entropy Y_hat Y);
  accs ← lift (accuracy Y_hat Y [1; 5]);
  match accs with
  | [acc1; acc5] =>
      log_dict [((mode +:+ "_loss")%string, Loss loss);
                ((mode +:+ "_acc1")%string, Ratio acc1);
                ((mode +:+ "_acc5")%string, Ratio acc5)]
               false true false true;;
      mret loss
  | _ => raise (ValueError "wrong number of values to unpack")
  end.

(** [self.regions[region]] *)
Definition region_tap (region : string) : M (Hook.t tensor) :=
  fun st =>
    match regions st !! region with
    | None => (inl (KeyError region), st)
    | Some tap => (inr tap, st)
    end.

(** [similarity(self, batch, region, mode)]. Its one call site hands it
    [batch[1]], a whole element of the training batch, so [X] is that
    element's source tags and [Y] its pair of tensors. *)
Definition similarity (self : Model_Lightning) (batch : sub_batch)
    (region mode : string) : M scalar :=
  let X := sources batch in
  let Y := data batch in
  _ ← call_model self (inr X);
  tap ← region_tap region;
  let Y_hat := Hook.output tap in
  loss ← lift (alignment (neural_loss self) Y Y_hat);
  log_dict [((mode +:+ "_" +:+ alignment_name (neural_loss self))%string,
             Loss loss)]
           true true true true;;
  mret loss.

(** [sum(losses)] *)
Definition py_sum (losses : list scalar) : scalar := foldl sadd szero losses.

(** The loop of [training_step] over [enumerate(batch)]. *)
Fixpoint training_loop (self : Model_Lightning) (batch : list sub_batch)
    (entries : list (nat * sub_batch)) (losses : list scalar) : M (list scalar) :=
  match entries with
  | [] => mret losses
  | (i, batch_) :: entries' =>
      tag ← lift (getitem (sources batch_) 0);
      if py_eq tag (TagStr "ImageNet") then
        w ← lift (getitem (loss_weights self) i);
        l ← classification self (data batch_) "train";
        training_loop self batch entries' (losses ++ [smul w l])
      else if py_eq tag (TagList ["NeuralData"%string]) then
        w ← lift (getitem (loss_weights self) i);
        b1 ← lift (getitem batch 1);
        l ← similarity self b1 "IT" "train";
        training_loop self batch entries' (losses ++ [smul w l])
      else training_loop self batch entries' losses
  end.

(** [training_step(self, batch, batch_idx)] *)
Definition training_step (self : Model_Lightning) (batch : list sub_batch)
    (batch_idx : Z) : M scalar :=
  losses ← training_loop self batch (enumerate batch) [];
  mret (py_sum losses).

(** The loop of [validation_step]. With [batch] a sequence,
    [batch['ImageNet']] is a [TypeError], raised while the argument of
    [classification] is evaluated; [region] is not bound anywhere, so
    [batch[region]] is a [NameError]. *)
Fixpoint validation_loop (self : Model_Lightning) (batch : list sub_batch)
    (entries : list (nat * sub_batch)) (mode : string) (losses : list scalar)
  : M (list scalar) :=
  match entries with
  | [] => mret losses
  | (i, batch_) :: entries' =>
      tag ← lift (getitem (sources batch_) 0);
      if py_eq tag (TagStr "ImageNet") then raise TypeError
      else if py_eq tag (TagList ["NeuralData"%string]) then raise (NameError "region")
      else validation_loop self batch entries' mode losses
  end.

(** [validation_step(self, batch, batch_idx, dataloader_idx=None, mode='val')] *)
Definition validation_step (self : Model_Lightning) (batch : list sub_batch)
    (batch_idx : Z) (dataloader_idx : option Z) (mode : string) : M scalar :=
  losses ← validation_loop self batch (enumerate batch) mode [];
  mret (py_sum losses).

(** [test_step(self, batch, batch_idx, dataloader_idx=None)] *)
Definition test_step (self : Model_Lightning) (batch : list sub_batch)
    (batch_idx : Z) (dataloader_idx : option Z) : M scalar :=
  validation_step self batch batch_idx dataloader_idx "val".

(** [optim.SGD(params, lr=..., weight_decay=..., momentum=..., nesterov=...)]
    with the default dampening 0: the checks the constructor makes on its
    arguments, in its order, then the check of the parameter list by the
    base class; each failure is a [ValueError], whose message is kept
    without the value it quotes. *)
Definition optim_SGD (param_list : params) (lr weight_decay momentum : Q)
    (nesterov : bool) : result SGD :=
  if negb (Qle_bool 0 lr) then inl (ValueError "Invalid learning rate")
  else if negb (Qle_bool 0 momentum) then inl (ValueError "Invalid momentum value")
  else if negb (Qle_bool 0 weight_decay)
  then inl (ValueError "Invalid weight_decay value")
  else if nesterov && Qle_bool momentum 0
  then inl (ValueError "Nesterov momentum requires a momentum and zero dampening")
  else if params_empty param_list
  then inl (ValueError "optimizer got an empty parameter list")
  else
    inr {| sgd_params := param_list;
           sgd_lr := lr;
           sgd_weight_decay := weight_decay;
           sgd_momentum := momentum;
           sgd_nesterov := nesterov |}.

(** [configure_optimizers(self)] *)
Definition configure_optimizers (self : Model_Lightning)
  : result (list SGD * list scheduler_dict) :=
  let param_list := parameters (model self) in
  let lr := Namespace.lr (hparams self) in
  match optim_SGD param_list lr (Namespace.weight_decay (hparams self))
          (9 # 10)%Q true with
  | inl e => inl e
  | inr optimizer =>
      let scheduler :=
        {| scheduler :=
             {| steplr_optimizer := optimizer;
                steplr_step_size := Namespace.step_size (hparams self) |};
           interval := "epoch" |} in
      inr ([optimizer], [scheduler])
  end.

(** The same object with another [self.hparams]. *)
Definition with_hparams (h : Namespace.t) (self : Model_Lightning) : Model_Lightning :=
  {| hparams := h; record_time := record_time self;
     loss_weights := loss_weights self; model := model self;
     neural_loss := neural_loss self |}.

(** The same object with another [self.loss_weights]. *)
Definition with_loss_weights (w : list Q) (self : Model_Lightning) : Model_Lightning :=
  {| hparams := hparams self; record_time := record_time self;
     loss_weights := w; model := model self;
     neural_loss := neural_loss self |}.

(** The weighted classification losses of the ['ImageNet'] elements
    alone, each weighted by the entry of [loss_weights] at its position
    in the batch: the loop that never consults the similarity path. *)
Fixpoint imagenet_loop (self : Model_Lightning)
    (entries : list (nat * sub_batch)) (losses : list scalar) : M (list scalar) :=
  match entries with
  | [] => mret losses
  | (i, batch_) :: entries' =>
      if bool_decide (sources batch_ !! 0%nat = Some (TagStr "ImageNet")) then
        w ← lift (getitem (loss_weights self) i);
        l ← classification self (data batch_) "train";
        imagenet_loop self entries' (losses ++ [smul w l])
      else imagenet_loop self entries' losses
  end.

Definition imagenet_weighted_sum (self : Model_Lightning) (batch : list sub_batch)
  : M scalar :=
  losses ← imagenet_loop self (enumerate batch) [];
  mret (py_sum losses).

(** Whether the router takes one of its two branches for an element. *)
Definition recognized (batch_ : sub_batch) : bool :=
  match sources batch_ !! 0%nat with
  | Some tag => py_eq tag (TagStr "ImageNet") || py_eq tag (TagList ["NeuralData"%string])
  | None => false
  end.

(** The number of elements of a batch the router computes a loss for. *)
Definition active_tasks (batch : list sub_batch) : nat :=
  length (filter (fun batch_ => recognized batch_ = true) batch).

End Model_Lightning.

(** ** A small instance of the framework

    Tensors are integers, a loss is a rational. The cross entropy of a
    pair [(X, Y)] is [Y] itself, the alignment loss of [(X, Y)] is [Y], the
    network is the identity on tensors, fires its ["IT"] module once per
    call, and rejects anything that is not a tensor. *)

Module Demo.

#[global] Instance framework : Framework := {|
  tensor := Z;
  scalar := Q;
  szero := 0%Q;
  sadd := Qplus;
  smul := Qmult;
  network := unit;
  pyobj := unit;
  params := unit;
  parameters := fun _ => tt;
  params_empty := fun _ => false;
  _modules := fun _ =>
    <["module"%string := tt]> (<["IT"%string := tt]> ∅);
  models_dict :=
    <["cornet_s"%string := fun _ _ _ => inr tt]> ∅;
  custom_models := {["cornet_s"%string]};
  forward := fun _ X =>
    match X with
    | inl x => ([("IT"%string, x, x)], inr x)
    | inr _ => ([], inl TypeError)
    end;
  cross_entropy := fun _ Y => inr (inject_Z Y);
  topk_correct := fun _ _ _ => inr (fun k => k);
  shape0 := fun _ => 4;
  alignment := fun _ Y _ => inr (inject_Z (snd Y));
  alignment_name := fun cls =>
    match cls with
    | CenteredKernelAlignment => "CKA"%string
    | LogCenteredKernelAlignment => "logCKA"%string
    end
|}.

Definition wrapper (weights : list Q) : Model_Lightning :=
  {| hparams := Namespace.with_loss_weights weights Namespace.defaults;
     record_time := false;
     loss_weights := weights;
     model := tt;
     neural_loss := CenteredKernelAlignment |}.

(** What [__init__] builds from the default hyperparameters. *)
Definition default_wrapper : Model_Lightning :=
  {| hparams := Namespace.defaults;
     record_time := false;
     loss_weights := [1%Q; 1%Q];
     model := tt;
     neural_loss := CenteredKernelAlignment |}.

Definition fresh : mstate :=
  {| regions := <["IT"%string := Hook.init "IT" false]> ∅; logged := [] |}.

(** An element tagged with strings, and one tagged with the list that
    the router's second test compares with. *)
Definition tagged (tag : string) (x y : Z) : sub_batch :=
  {| sources := [TagStr tag; TagStr tag]; data := (x, y) |}.

Definition list_tagged (tag : list string) (x y : Z) : sub_batch :=
  {| sources := [TagList tag; TagList tag]; data := (x, y) |}.

Definition trainer0 : Checkpoint.Trainer :=
  {| Checkpoint.current_epoch := 0;
     Checkpoint.global_step := 0;
     Checkpoint.checkpoint_callback :=
       {| Checkpoint.filename := "last.ckpt"; Checkpoint.dirpath := "ckpts" |};
     Checkpoint.saved := [] |}.

End Demo.

(** ** A second instance of the framework

    Networks are booleans: [true] is a wrapped model with the sub-modules
    ['module'], ['IT'] and ['V4'], [false] a bare network without
    sub-modules. A tensor is an integer that is also its number of rows.
    Called on a tensor the network runs its ['IT'] module; called on a
    list of source tags it runs its ['V4'] module only. The factory of
    ['resnet18'] rejects keyword arguments; an alignment loss fails on a
    tap without a value. *)

Module Lab.

Definition framework : Framework := {|
  tensor := Z;
  scalar := Q;
  szero := 0%Q;
  sadd := Qplus;
  smul := Qmult;
  network := bool;
  pyobj := unit;
  params := unit;
  parameters := fun _ => tt;
  params_empty := fun _ => false;
  _modules := fun net =>
    if net
    then <["module"%string := true]> (<["IT"%string := true]> (<["V4"%string := true]> ∅))
    else ∅;
  models_dict :=
    <["cornet_s"%string := fun _ _ _ => inr true]>
      (<["resnet18"%string :=
           fun _ _ (kwargs : gmap string unit) =>
             if bool_decide (kwargs = ∅) then inr false else inl TypeError]> ∅);
  custom_models := {["cornet_s"%string]};
  forward := fun _ X =>
    match X with
    | inl x => ([("IT"%string, x, x + 1)], inr x)
    | inr _ => ([("V4"%string, 0, 7)], inr 0)
    end;
  cross_entropy := fun _ Y => inr (inject_Z Y);
  topk_correct := fun _ _ _ => inr (fun k => k);
  shape0 := fun x => x;
  alignment := fun _ _ Y_hat =>
    match Y_hat with
    | Some out => inr (inject_Z out)
    | None => inl TypeError
    end;
  alignment_name := fun cls =>
    match cls with
    | CenteredKernelAlignment => "CKA"%string
    | LogCenteredKernelAlignment => "logCKA"%string
    end
|}.

(** Hyperparameters that differ from the defaults in architecture,
    regions and loss kind. *)
Definition hparams_of (arch : string) (regions : list string) (kind : string)
  : Namespace.t :=
  {| Namespace.v_num := None; Namespace.arch := arch;
     Namespace.regions := regions; Namespace.neural_loss := kind;
     Namespace.loss_weights := [1%Q; 1%Q]; Namespace.image_size := 224;
     Namespace.epochs := 25; Namespace.batch_size := 96;
     Namespace.scheduler := "ExponentialLR"; Namespace.lr := (1 # 10)%Q;
     Namespace.step_size := 50; Namespace.momentum := (9 # 10)%Q;
     Namespace.weight_decay := (1 # 10000)%Q; Namespace.optim := "sgd";
     Namespace.pretrained := true; Namespace.record_time := false;
     Namespace.verbose := false |}.

End Lab.

(** An element of a batch of the first instance that carries no source
    tag at all. *)
Definition untagged (x y : Z) : @sub_batch Demo.framework :=
  {| sources := []; data := (x, y) |}.

(** ** Derived notions used to state properties of the callback *)

(** The character [c] does not occur in [s]. *)
Fixpoint lacks (c : ascii) (s : string) : bool :=
  match s with
  | EmptyString => true
  | String c' s' => negb (bool_decide (c' = c)) && lacks c s'
  end.

(** The callback with another frequency. *)
Definition with_frequency (freq : Z) (self : Checkpoint.CheckpointEveryNSteps)
  : Checkpoint.CheckpointEveryNSteps :=
  {| Checkpoint.save_step_frequency := freq;
     Checkpoint.prefix := Checkpoint.prefix self;
     Checkpoint.use_modelcheckpoint_filename :=
       Checkpoint.use_modelcheckpoint_filename self |}.

(** ** Derived notions used to state properties of the wrapper *)

Section Model_Lightning_derived.
Context `{Framework}.
#[local] Existing Instance M_ret.
#[local] Existing Instance M_bind.

(** An element the router passes over: it has a first source tag, and the
    tag is neither of the two the router tests for. *)
Definition skipped (batch_ : sub_batch) : bool :=
  match sources batch_ !! 0%nat with
  | Some tag =>
      negb (py_eq tag (TagStr "ImageNet"))
      && negb (py_eq tag (TagList ["NeuralData"%string]))
  | None => false
  end.

(** The calls, among those of one forward pass, made by the sub-module
    named [region]. *)
Definition calls_of (region : string) (calls : list (string * tensor * tensor))
  : list (tensor * tensor) :=
  omap (fun c => if decide (c.1.1 = region) then Some (c.1.2, c.2) else None) calls.

(** [classification] in mode ['train'] on each pair in turn. *)
Fixpoint classify_all (self : Model_Lightning) (pairs : list (tensor * tensor))
  : M (list scalar) :=
  match pairs with
  | [] => mret []
  | xy :: pairs' =>
      l ← classification self xy "train";
      ls ← classify_all self pairs';
      mret (l :: ls)
  end.

(** The dictionary [classification] logs, and the one [similarity] logs. *)
Definition classification_log (mode : string) (loss : scalar) (acc1 acc5 : Q)
  : log_call :=
  {| log := [((mode +:+ "_loss")%string, Loss loss);
             ((mode +:+ "_acc1")%string, Ratio acc1);
             ((mode +:+ "_acc5")%string, Ratio acc5)];
     on_step := false; on_epoch := true; prog_bar := false; logger := true |}.

Definition similarity_log (self : Model_Lightning) (mode : string) (loss : scalar)
  : log_call :=
  {| log := [((mode +:+ "_" +:+ alignment_name (neural_loss self))%string, Loss loss)];
     on_step := true; on_epoch := true; prog_bar := true; logger := true |}.

(** The state after a forward pass that made the calls [calls], and the
    state after one more call to [log_dict]. *)
Definition after_forward (st : mstate) (calls : list (string * tensor * tensor))
  : mstate :=
  {| regions := fire_taps (regions st) calls; logged := logged st |}.

Definition after_log (st : mstate) (c : log_call) : mstate :=
  {| regions := regions st; logged := logged st ++ [c] |}.

(** What a tap holds once its sub-module has made the calls [calls]: the
    output of the last of them, and what it held before when there is
    none. *)
Definition tap_value (tap : Hook.t tensor) (calls : list (tensor * tensor))
  : option tensor :=
  match last calls with
  | Some c => Some c.2
  | None => Hook.output tap
  end.

(** One state comes after another in a run of the wrapper: the taps are
    the same hooks, registered as before, and the log has only grown. *)
Definition follows (st st' : mstate) : Prop :=
  Hook.hook <$> regions st' = Hook.hook <$> regions st
  /\ logged st `prefix_of` logged st'.

End Model_Lightning_derived.

(** * Properties *)

(** ** The activation tap *)

Lemma fire_output {T} (module : string) (h : Hook.t T) (calls : list (T * T)) :
  Hook.output (Hook.fire module h calls) =
  match last calls with
  | Some c => Some (snd c)
  | None => Hook.output h
  end.
Proof.
  revert h. induction calls as [|c calls IH]; intros h; [reflexivity|].
  change (Hook.fire module h (c :: calls))
    with (Hook.fire module (Hook.hook_fn h module (fst c) (snd c)) calls).
  rewrite IH. destruct calls as [|c' calls]; [reflexivity|].
  change (last (c :: c' :: calls)) with (last (c' :: calls)).
  destruct (last (c' :: calls)) eqn:E; [reflexivity|].
  apply last_None in E. discriminate E.
Qed.

(** C3. Reading a hook's [output] after the attached module has fired for
    the calls [calls] gives the output of the last call, and [None] when
    there was no call: [None] after zero firings, the first output after
    one, the second output alone after two. *)
Theorem hook_read_after_firings {T} (module : string) (backward : bool) :
  (forall calls : list (T * T),
      Hook.output (Hook.fire module (Hook.init module backward) calls)
      = snd <$> last calls)
  /\ Hook.output (Hook.init (T := T) module backward) = None
  /\ (forall i1 o1 : T,
        Hook.output (Hook.fire module (Hook.init module backward) [(i1, o1)])
        = Some o1)
  /\ (forall i1 o1 i2 o2 : T,
        Hook.output (Hook.fire module (Hook.init module backward) [(i1, o1); (i2, o2)])
        = Some o2).
Proof.
  split; [|repeat split].
  intros calls. rewrite fire_output. destruct (last calls); reflexivity.
Qed.

(** ** The periodic checkpoint policy *)

Lemma on_batch_end_multiple (self : Checkpoint.CheckpointEveryNSteps)
    (trainer : Checkpoint.Trainer) :
  Checkpoint.save_step_frequency self <> 0 ->
  Checkpoint.on_batch_end self trainer =
  inr (if bool_decide (Checkpoint.global_step trainer
                         `mod` Checkpoint.save_step_frequency self = 0)
       then Checkpoint.save_checkpoint trainer (Checkpoint.ckpt_path self trainer)
       else trainer).
Proof.
  intros HN. unfold Checkpoint.on_batch_end.
  rewrite bool_decide_eq_false_2 by assumption.
  case_bool_decide; reflexivity.
Qed.

Lemma run_steps_saved (self : Checkpoint.CheckpointEveryNSteps) (steps : list Z) :
  Checkpoint.save_step_frequency self <> 0 ->
  forall trainer,
  exists trainer',
    Checkpoint.run_steps self trainer steps = inr trainer'
    /\ Checkpoint.current_epoch trainer' = Checkpoint.current_epoch trainer
    /\ Checkpoint.checkpoint_callback trainer' = Checkpoint.checkpoint_callback trainer
    /\ Checkpoint.saved trainer' =
       Checkpoint.saved trainer ++
       ((fun k => Checkpoint.ckpt_path self (Checkpoint.at_step trainer k)) <$>
        filter (fun k => k `mod` Checkpoint.save_step_frequency self = 0) steps).
Proof.
  intros HN. induction steps as [|k steps IH]; intros trainer.
  - exists trainer. simpl. rewrite app_nil_r. auto.
  - simpl. rewrite on_batch_end_multiple by assumption.
    rewrite filter_cons. simpl Checkpoint.global_step.
    case_bool_decide as Hk.
    + rewrite decide_True by assumption.
      destruct (IH (Checkpoint.save_checkpoint (Checkpoint.at_step trainer k)
                      (Checkpoint.ckpt_path self (Checkpoint.at_step trainer k))))
        as (t' & Hrun & He & Hc & Hs).
      exists t'. rewrite Hrun. repeat split; try assumption.
      rewrite Hs. simpl. rewrite <- app_assoc. reflexivity.
    + rewrite decide_False by assumption.
      destruct (IH (Checkpoint.at_step trainer k)) as (t' & Hrun & He & Hc & Hs).
      exists t'. rewrite Hrun. repeat split; assumption.
Qed.

(** C2. With a frequency [N] other than zero, one call of [on_batch_end]
    writes exactly one checkpoint when [N] divides the global step count
    (step 0 included) and writes nothing otherwise; over any sequence of
    completed steps the checkpoints written are those of the multiples of
    [N], one each, in order; with [N = 5] and the steps 0 to 20 they are
    those of steps 0, 5, 10, 15 and 20. *)
Theorem on_batch_end_fires_on_multiples :
  (forall self trainer,
      Checkpoint.save_step_frequency self <> 0 ->
      ((Checkpoint.save_step_frequency self | Checkpoint.global_step trainer) ->
       Checkpoint.on_batch_end self trainer
       = inr (Checkpoint.save_checkpoint trainer (Checkpoint.ckpt_path self trainer)))
      /\ (~ (Checkpoint.save_step_frequency self | Checkpoint.global_step trainer) ->
          Checkpoint.on_batch_end self trainer = inr trainer))
  /\ (forall self trainer steps,
        Checkpoint.save_step_frequency self <> 0 ->
        exists trainer',
          Checkpoint.run_steps self trainer steps = inr trainer'
          /\ Checkpoint.saved trainer' =
             Checkpoint.saved trainer ++
             ((fun k => Checkpoint.ckpt_path self (Checkpoint.at_step trainer k)) <$>
              filter (fun k => (Checkpoint.save_step_frequency self | k)) steps))
  /\ Checkpoint.run_steps (Checkpoint.init 5 None (Some false)) Demo.trainer0
       (seqZ 0 21)
     = inr (Checkpoint.at_step
              (foldl Checkpoint.save_checkpoint Demo.trainer0
                 ["ckpts/N-Step-Checkpoint_0_0.ckpt"; "ckpts/N-Step-Checkpoint_0_5.ckpt";
                  "ckpts/N-Step-Checkpoint_0_10.ckpt"; "ckpts/N-Step-Checkpoint_0_15.ckpt";
                  "ckpts/N-Step-Checkpoint_0_20.ckpt"]%string)
              20).
Proof.
  split; [|split].
  - intros self trainer HN. rewrite on_batch_end_multiple by assumption.
    split; intros Hd.
    + rewrite bool_decide_eq_true_2; [reflexivity|].
      apply Z.mod_divide; assumption.
    + rewrite bool_decide_eq_false_2; [reflexivity|].
      intros Hm. apply Hd. apply Z.mod_divide; assumption.
  - intros self trainer steps HN.
    destruct (run_steps_saved self steps HN trainer) as (t' & Hrun & _ & _ & Hs).
    exists t'. split; [assumption|]. rewrite Hs. do 2 f_equal.
    apply list_filter_iff. intros k. rewrite Z.mod_divide by assumption. reflexivity.
  - vm_compute. reflexivity.
Qed.

(** Step 10 completes under the default callback settings and writes the
    checkpoint; step 7 writes none. *)
Lemma on_batch_end_fires_on_multiples_witness :
  Checkpoint.on_batch_end (Checkpoint.init 5 None None)
    (Checkpoint.at_step Demo.trainer0 10)
  = inr (Checkpoint.save_checkpoint (Checkpoint.at_step Demo.trainer0 10)
           "ckpts/last.ckpt")
  /\ Checkpoint.on_batch_end (Checkpoint.init 5 None None)
       (Checkpoint.at_step Demo.trainer0 7)
     = inr (Checkpoint.at_step Demo.trainer0 7)
  /\ exists trainer',
       Checkpoint.run_steps (Checkpoint.init 5 None None) Demo.trainer0 [4; 5; 6]
       = inr trainer'
       /\ Checkpoint.saved trainer' = ["ckpts/last.ckpt"%string].
Proof.
  assert (HN : Checkpoint.save_step_frequency (Checkpoint.init 5 None None) <> 0)
    by (simpl; lia).
  split; [|split].
  - apply (proj1 (proj1 on_batch_end_fires_on_multiples
                    (Checkpoint.init 5 None None)
                    (Checkpoint.at_step Demo.trainer0 10) HN)).
    exists 2. reflexivity.
  - apply (proj2 (proj1 on_batch_end_fires_on_multiples
                    (Checkpoint.init 5 None None)
                    (Checkpoint.at_step Demo.trainer0 7) HN)).
    simpl. intros [q Hq]. lia.
  - exact (proj1 (proj2 on_batch_end_fires_on_multiples)
             (Checkpoint.init 5 None None) Demo.trainer0 [4; 5; 6] HN).
Defined.

(** ** The wrapper *)

Section Model_Lightning_facts.
Context `{Framework}.
#[local] Existing Instance M_ret.
#[local] Existing Instance M_bind.

(** *** The monad of a step *)

Lemma bind_assoc {A B C} (c : M A) (f : A -> M B) (g : B -> M C) st :
  ((c ≫= f) ≫= g) st = (c ≫= (fun x => f x ≫= g)) st.
Proof.
  unfold mbind, M_bind. destruct (c st) as [[e|x] st']; reflexivity.
Qed.

Lemma bind_ext {A B} (c : M A) (f g : A -> M B) st :
  (forall x st', f x st' = g x st') -> (c ≫= f) st = (c ≫= g) st.
Proof.
  intros Hfg. unfold mbind, M_bind. destruct (c st) as [[e|x] st']; auto.
Qed.

Lemma bind_run {A B} (c c' : M A) (f : A -> M B) st :
  c st = c' st -> (c ≫= f) st = (c' ≫= f) st.
Proof. intros Hc. unfold mbind, M_bind. rewrite Hc. reflexivity. Qed.

Lemma bind_ret_r {A} (c : M A) st : (c ≫= mret) st = c st.
Proof.
  unfold mbind, M_bind. destruct (c st) as [[e|x] st']; reflexivity.
Qed.

Lemma bind_lift_inr {A B} (a : A) (f : A -> M B) st :
  (lift (inr a) ≫= f) st = f a st.
Proof. reflexivity. Qed.

Lemma bind_lift_inl {A B} (e : pyexc) (f : A -> M B) st :
  (lift (inl e) ≫= f) st = (inl e, st).
Proof. reflexivity. Qed.

Lemma bind_mret {A B} (a : A) (f : A -> M B) st : (mret a ≫= f) st = f a st.
Proof. reflexivity. Qed.

Lemma getitem_Some {A} (l : list A) i x : l !! i = Some x -> getitem l i = inr x.
Proof. intros Hl. unfold getitem. rewrite Hl. reflexivity. Qed.

Lemma getitem_None {A} (l : list A) i : l !! i = None -> getitem l i = inl IndexError.
Proof. intros Hl. unfold getitem. rewrite Hl. reflexivity. Qed.

(** *** One turn of the loop of [training_step] *)

Lemma training_loop_cons self batch i batch_ entries losses st :
  training_loop self batch ((i, batch_) :: entries) losses st =
  (tag ← lift (getitem (sources batch_) 0);
   if py_eq tag (TagStr "ImageNet") then
     w ← lift (getitem (loss_weights self) i);
     l ← classification self (data batch_) "train";
     training_loop self batch entries (losses ++ [smul w l])
   else if py_eq tag (TagList ["NeuralData"%string]) then
     w ← lift (getitem (loss_weights self) i);
     b1 ← lift (getitem batch 1);
     l ← similarity self b1 "IT" "train";
     training_loop self batch entries (losses ++ [smul w l])
   else training_loop self batch entries losses) st.
Proof. reflexivity. Qed.

Lemma training_loop_app self batch entries1 entries2 :
  forall losses st,
  training_loop self batch (entries1 ++ entries2) losses st =
  (losses' ← training_loop self batch entries1 losses;
   training_loop self batch entries2 losses') st.
Proof.
  induction entries1 as [|[i batch_] entries1 IH]; intros losses st.
  - reflexivity.
  - rewrite <- app_comm_cons, training_loop_cons.
    symmetry. etrans; [apply bind_run, training_loop_cons|].
    rewrite bind_assoc. symmetry.
    apply bind_ext. intros tag st1.
    destruct (py_eq tag (TagStr "ImageNet")).
    { rewrite bind_assoc. apply bind_ext. intros w st2.
      rewrite bind_assoc. apply bind_ext. intros l st3. apply IH. }
    destruct (py_eq tag (TagList ["NeuralData"%string])).
    { rewrite bind_assoc. apply bind_ext. intros w st2.
      rewrite bind_assoc. apply bind_ext. intros b1 st3.
      rewrite bind_assoc. apply bind_ext. intros l st4. apply IH. }
    apply IH.
Qed.

(** An element whose tag is neither of the two the router tests for
    leaves the accumulated losses and the state as they are. *)
Lemma training_loop_skip self batch i batch_ tag entries losses st :
  sources batch_ !! 0%nat = Some tag ->
  tag <> TagStr "ImageNet" ->
  tag <> TagList ["NeuralData"%string] ->
  training_loop self batch ((i, batch_) :: entries) losses st =
  training_loop self batch entries losses st.
Proof.
  intros Htag H1 H2. rewrite training_loop_cons.
  rewrite (getitem_Some _ _ _ Htag), bind_lift_inr.
  unfold py_eq. rewrite !bool_decide_eq_false_2 by assumption. reflexivity.
Qed.

(** A recognised element at a position without a weight raises
    [IndexError] before anything is computed for it. *)
Lemma training_loop_no_weight self batch i batch_ entries losses st :
  recognized batch_ = true ->
  (length (loss_weights self) <= i)%nat ->
  training_loop self batch ((i, batch_) :: entries) losses st = (inl IndexError, st).
Proof.
  intros Hrec Hlen. rewrite training_loop_cons.
  unfold recognized in Hrec.
  destruct (sources batch_ !! 0%nat) as [tag|] eqn:Htag; [|discriminate].
  rewrite (getitem_Some _ _ _ Htag), bind_lift_inr.
  rewrite (getitem_None (loss_weights self) i) by (apply lookup_ge_None_2; assumption).
  destruct (py_eq tag (TagStr "ImageNet")); [reflexivity|].
  simpl in Hrec. rewrite Hrec. reflexivity.
Qed.

Lemma enumerate_lookup {A} (l : list A) i x :
  l !! i = Some x -> enumerate l !! i = Some (i, x).
Proof. intros Hl. unfold enumerate. rewrite list_lookup_imap, Hl. reflexivity. Qed.

Lemma enumerate_split {A} (l : list A) i x :
  l !! i = Some x ->
  enumerate l = take i (enumerate l) ++ (i, x) :: drop (S i) (enumerate l).
Proof.
  intros Hl. symmetry. apply take_drop_middle. apply enumerate_lookup, Hl.
Qed.

Lemma enumerate_elem_of {A} (l : list A) i x :
  (i, x) ∈ enumerate l -> l !! i = Some x.
Proof.
  unfold enumerate. intros Hin. apply elem_of_lookup_imap in Hin.
  destruct Hin as (j & y & Heq & Hl). inversion Heq; subst. exact Hl.
Qed.

Lemma training_loop_imagenet self batch rest :
  Forall (fun b => sources b !! 0%nat = Some (TagStr "ImageNet")) rest ->
  forall k acc st,
  (k + length rest <= length (loss_weights self))%nat ->
  training_loop self batch (imap (fun j b => ((k + j)%nat, b)) rest) acc st =
  (ls ← classify_all self (data <$> rest);
   mret (acc ++ zip_with smul (drop k (loss_weights self)) ls)) st.
Proof.
  induction 1 as [|b rest Htag _ IH]; intros k acc st Hlen.
  - unfold mbind, M_bind. simpl.
    rewrite zip_with_nil_r, app_nil_r. reflexivity.
  - simpl in Hlen.
    destruct (lookup_lt_is_Some_2 (loss_weights self) k) as [w Hw]; [lia|].
    rewrite imap_cons, training_loop_cons.
    rewrite (getitem_Some _ _ _ Htag), bind_lift_inr.
    change (py_eq (TagStr "ImageNet") (TagStr "ImageNet")) with true.
    cbv iota. rewrite Nat.add_0_r.
    rewrite (getitem_Some _ _ _ Hw), bind_lift_inr.
    rewrite fmap_cons. simpl classify_all. rewrite bind_assoc.
    apply bind_ext. intros l st1.
    rewrite (imap_ext _ (fun j b0 => ((S k + j)%nat, b0)))
      by (intros j b0 _; simpl; f_equal; lia).
    rewrite IH by lia.
    rewrite bind_assoc. apply bind_ext. intros ls st2.
    rewrite bind_mret. rewrite (drop_S _ _ _ Hw). simpl.
    rewrite <- app_assoc. reflexivity.
Qed.

End Model_Lightning_facts.

Section Model_Lightning_claims.
Context `{Framework}.
#[local] Existing Instance M_ret.
#[local] Existing Instance M_bind.

(** *** Routing *)

(** C4. An element of the batch whose tag is neither ['ImageNet'] nor
    [['NeuralData']] is skipped in silence: the step ends exactly as the
    loop over the other elements does, each at its own position, so the
    element adds no term to the sum, raises nothing, and changes
    nothing. *)
Theorem training_step_skips_unknown_tag self batch batch_idx i batch_ tag st :
  batch !! i = Some batch_ ->
  sources batch_ !! 0%nat = Some tag ->
  tag <> TagStr "ImageNet" ->
  tag <> TagList ["NeuralData"%string] ->
  training_step self batch batch_idx st =
  (losses ← training_loop self batch (delete i (enumerate batch)) [];
   mret (py_sum losses)) st.
Proof.
  intros Hb Htag H1 H2. unfold training_step.
  apply bind_run.
  rewrite (enumerate_split batch i batch_ Hb) at 1.
  rewrite delete_take_drop, !training_loop_app.
  apply bind_ext. intros losses st'.
  apply (training_loop_skip self batch i batch_ tag); assumption.
Qed.

Lemma training_loop_string_tags self batch entries :
  (forall i batch_, (i, batch_) ∈ entries ->
     exists s, sources batch_ !! 0%nat = Some (TagStr s)) ->
  forall losses st,
  training_loop self batch entries losses st = imagenet_loop self entries losses st.
Proof.
  induction entries as [|[i batch_] entries IH]; intros Htags losses st.
  - reflexivity.
  - destruct (Htags i batch_) as [s Hs]; [left|].
    assert (IH' : forall losses st,
               training_loop self batch entries losses st
               = imagenet_loop self entries losses st).
    { apply IH. intros j b Hin. apply (Htags j b). right. exact Hin. }
    rewrite training_loop_cons, (getitem_Some _ _ _ Hs), bind_lift_inr.
    simpl imagenet_loop. rewrite Hs. unfold py_eq.
    destruct (decide (s = "ImageNet"%string)) as [->|Hne].
    + rewrite !bool_decide_eq_true_2 by reflexivity.
      apply bind_ext. intros w st1. apply bind_ext. intros l st2. apply IH'.
    + rewrite !(bool_decide_eq_false_2 (_ = _)) by congruence. apply IH'.
Qed.

(** C9. A string tag never equals the list [['NeuralData']], so on a
    batch whose elements all carry string tags the similarity path is
    never taken: the step is the weighted sum of the classification
    losses of the ['ImageNet'] elements alone. *)
Theorem training_step_similarity_unreachable self batch batch_idx st :
  (forall batch_, batch_ ∈ batch ->
     exists s, sources batch_ !! 0%nat = Some (TagStr s)) ->
  (forall s, py_eq (TagStr s) (TagList ["NeuralData"%string]) = false)
  /\ training_step self batch batch_idx st = imagenet_weighted_sum self batch st.
Proof.
  intros Htags. split; [reflexivity|].
  unfold training_step, imagenet_weighted_sum. apply bind_run.
  apply training_loop_string_tags. intros i batch_ Hin.
  apply Htags. apply enumerate_elem_of in Hin.
  eapply list_elem_of_lookup_2. exact Hin.
Qed.

(** *** Loss weights *)

Lemma training_loop_weights self w batch entries :
  (forall i batch_, (i, batch_) ∈ entries -> w !! i = loss_weights self !! i) ->
  forall losses st,
  training_loop (with_loss_weights w self) batch entries losses st =
  training_loop self batch entries losses st.
Proof.
  induction entries as [|[i batch_] entries IH]; intros Hw losses st.
  - reflexivity.
  - assert (IH' : forall losses st,
               training_loop (with_loss_weights w self) batch entries losses st
               = training_loop self batch entries losses st).
    { apply IH. intros j b Hin. apply (Hw j b). right. exact Hin. }
    assert (Hi : getitem (loss_weights (with_loss_weights w self)) i
                 = getitem (loss_weights self) i).
    { unfold getitem. simpl. rewrite (Hw i batch_) by left. reflexivity. }
    rewrite !training_loop_cons. apply bind_ext. intros tag st1.
    rewrite Hi.
    destruct (py_eq tag (TagStr "ImageNet")).
    { apply bind_ext. intros w0 st2.
      change (classification (with_loss_weights w self))
        with (classification self).
      apply bind_ext. intros l st3. apply IH'. }
    destruct (py_eq tag (TagList ["NeuralData"%string])).
    { apply bind_ext. intros w0 st2. apply bind_ext. intros b1 st3.
      change (similarity (with_loss_weights w self)) with (similarity self).
      apply bind_ext. intros l st4. apply IH'. }
    apply IH'.
Qed.

(** C5 as amended. The weight of an element is looked up at the
    element's position in the batch. When a recognised element sits at a
    position that has no weight, the step raises [IndexError] on reaching
    it, before computing its loss, and returns no loss: nothing is padded.
    Weights beyond the length of the batch are ignored: with at least as
    many weights as elements, the step is the step with the further
    weights taken away. And with at least as many weights as elements, all
    of them tagged ['ImageNet'] and classified without an exception, no
    error is raised: the step returns the sum of weight times loss, the
    i-th weight with the i-th loss. *)
Theorem training_step_weights_by_position self batch batch_idx st :
  (forall i batch_,
      batch !! i = Some batch_ ->
      recognized batch_ = true ->
      (length (loss_weights self) <= i)%nat ->
      training_step self batch batch_idx st =
      (training_loop self batch (take i (enumerate batch)) [] ≫=
         fun _ => raise IndexError) st
      /\ is_ok (fst (training_step self batch batch_idx st)) = false)
  /\ (forall extra,
        (length batch <= length (loss_weights self))%nat ->
        training_step (with_loss_weights (loss_weights self ++ extra) self)
          batch batch_idx st
        = training_step self batch batch_idx st)
  /\ ((length batch <= length (loss_weights self))%nat ->
      training_step (with_loss_weights (take (length batch) (loss_weights self)) self)
        batch batch_idx st
      = training_step self batch batch_idx st)
  /\ (forall ls st',
        (length batch <= length (loss_weights self))%nat ->
        Forall (fun b => sources b !! 0%nat = Some (TagStr "ImageNet")) batch ->
        classify_all self (data <$> batch) st = (inr ls, st') ->
        training_step self batch batch_idx st
        = (inr (py_sum (zip_with smul (loss_weights self) ls)), st')
        /\ is_ok (fst (training_step self batch batch_idx st)) = true).
Proof.
  split; [|split; [|split]].
  - intros i batch_ Hb Hrec Hlen.
    assert (Heq : training_step self batch batch_idx st =
                  (training_loop self batch (take i (enumerate batch)) [] ≫=
                     fun _ => raise IndexError) st).
    { unfold training_step.
      rewrite (enumerate_split batch i batch_ Hb) at 1.
      etrans; [apply bind_run, training_loop_app|].
      rewrite bind_assoc. apply bind_ext. intros losses st'.
      unfold mbind, M_bind.
      rewrite training_loop_no_weight by assumption. reflexivity. }
    split; [exact Heq|]. rewrite Heq. unfold mbind, M_bind.
    destruct (training_loop self batch (take i (enumerate batch)) [] st)
      as [[e|x] st']; reflexivity.
  - intros extra Hlen. unfold training_step. apply bind_run.
    apply training_loop_weights. intros i batch_ Hin.
    apply enumerate_elem_of in Hin. apply lookup_lt_Some in Hin.
    apply lookup_app_l. lia.
  - intros Hlen. unfold training_step. apply bind_run.
    apply training_loop_weights. intros i batch_ Hin.
    apply enumerate_elem_of in Hin. apply lookup_lt_Some in Hin.
    apply lookup_take_lt. exact Hin.
  - intros ls st' Hlen Htags Hcls.
    assert (Heq : training_step self batch batch_idx st
                  = (inr (py_sum (zip_with smul (loss_weights self) ls)), st')).
    { unfold training_step.
      etrans.
      { apply bind_run.
        apply (training_loop_imagenet self batch batch Htags 0%nat [] st). exact Hlen. }
      rewrite bind_assoc. unfold mbind at 1. unfold M_bind at 1.
      rewrite Hcls. reflexivity. }
    split; [exact Heq|]. rewrite Heq. reflexivity.
Qed.

(** *** Evaluation steps *)

(** C6. [test_step] is [validation_step] called with mode ['val'] on the
    same batch, batch index and dataloader index: the same result, the
    same exception if there is one, and the same calls to [log_dict]. *)
Theorem test_step_is_validation_step self batch batch_idx dataloader_idx :
  test_step self batch batch_idx dataloader_idx
  = validation_step self batch batch_idx dataloader_idx "val"
  /\ forall st,
       logged (snd (test_step self batch batch_idx dataloader_idx st))
       = logged (snd (validation_step self batch batch_idx dataloader_idx "val" st)).
Proof. split; [reflexivity|intros st; reflexivity]. Qed.

(** *** Optimiser and schedule *)

Lemma optim_SGD_accepts (param_list : params) (lr wd : Q) :
  (0 <= lr)%Q -> (0 <= wd)%Q -> params_empty param_list = false ->
  optim_SGD param_list lr wd (9 # 10)%Q true
  = inr {| sgd_params := param_list; sgd_lr := lr; sgd_weight_decay := wd;
           sgd_momentum := (9 # 10)%Q; sgd_nesterov := true |}.
Proof.
  intros Hlr Hwd Hp. unfold optim_SGD.
  apply Qle_bool_iff in Hlr, Hwd. rewrite Hlr, Hwd, Hp. reflexivity.
Qed.

Lemma optim_SGD_rejects (param_list : params) (lr wd : Q) :
  (lr < 0)%Q \/ (wd < 0)%Q \/ params_empty param_list = true ->
  exists msg, optim_SGD param_list lr wd (9 # 10)%Q true = inl (ValueError msg).
Proof.
  assert (Hneg : forall q, (q < 0)%Q -> Qle_bool 0 q = false).
  { intros q Hq. destruct (Qle_bool 0 q) eqn:E; [|reflexivity].
    apply Qle_bool_iff in E. exfalso. eapply Qlt_not_le; eassumption. }
  intros Hbad. unfold optim_SGD.
  destruct (Qle_bool 0 lr) eqn:Hlr; [|eexists; reflexivity]. simpl.
  destruct (Qle_bool 0 wd) eqn:Hwd; [|eexists; reflexivity]. simpl.
  destruct Hbad as [Hq|[Hq|Hp]].
  - rewrite (Hneg _ Hq) in Hlr. discriminate.
  - rewrite (Hneg _ Hq) in Hwd. discriminate.
  - rewrite Hp. eexists. reflexivity.
Qed.

(** C7 as amended. When the configured learning rate and weight decay are
    not negative and the model has a parameter, [configure_optimizers]
    returns one optimiser and one schedule: SGD over the parameters of the
    model with the configured learning rate and weight decay, momentum 0.9
    and Nesterov acceleration, and a step decay of that optimiser with the
    configured step size, applied per epoch. With a negative learning rate
    or weight decay, or a model without parameters, the constructor of the
    optimiser raises [ValueError] and nothing is returned. *)
Theorem configure_optimizers_sgd_steplr self :
  ((0 <= Namespace.lr (hparams self))%Q ->
   (0 <= Namespace.weight_decay (hparams self))%Q ->
   params_empty (parameters (model self)) = false ->
   exists optimizer sched,
     configure_optimizers self = inr ([optimizer], [sched])
     /\ sgd_params optimizer = parameters (model self)
     /\ sgd_lr optimizer = Namespace.lr (hparams self)
     /\ sgd_weight_decay optimizer = Namespace.weight_decay (hparams self)
     /\ sgd_momentum optimizer = (9 # 10)%Q
     /\ sgd_nesterov optimizer = true
     /\ steplr_optimizer (scheduler sched) = optimizer
     /\ steplr_step_size (scheduler sched) = Namespace.step_size (hparams self)
     /\ interval sched = "epoch"%string)
  /\ ((Namespace.lr (hparams self) < 0)%Q
      \/ (Namespace.weight_decay (hparams self) < 0)%Q
      \/ params_empty (parameters (model self)) = true ->
      exists msg, configure_optimizers self = inl (ValueError msg)).
Proof.
  split.
  - intros Hlr Hwd Hp. unfold configure_optimizers. cbv zeta.
    rewrite optim_SGD_accepts by assumption.
    do 2 eexists. repeat split.
  - intros Hbad. unfold configure_optimizers. cbv zeta.
    destruct (optim_SGD_rejects _ _ _ Hbad) as [msg Hmsg].
    rewrite Hmsg. exists msg. reflexivity.
Qed.

(** C10. The fields [momentum], [optim] and [scheduler] of the
    hyperparameters have no influence on [configure_optimizers]: a
    wrapper whose hyperparameters differ in them alone gets the same
    optimiser and schedule, and so does a wrapper constructed from such
    hyperparameters. *)
Theorem configure_optimizers_ignores_momentum_optim_scheduler m o s :
  (forall self,
      configure_optimizers
        (with_hparams
           (Namespace.with_momentum m
              (Namespace.with_optim o
                 (Namespace.with_scheduler s (hparams self)))) self)
      = configure_optimizers self)
  /\ (forall h args kwargs self st,
        init h args kwargs = inr (self, st) ->
        exists self',
          init (Namespace.with_momentum m
                  (Namespace.with_optim o (Namespace.with_scheduler s h)))
               args kwargs
          = inr (self', st)
          /\ configure_optimizers self' = configure_optimizers self).
Proof.
  split; [reflexivity|].
  intros h args kwargs self st Hinit. unfold init in *.
  destruct (bind_get_model args kwargs) as [e|[args' kwargs']]; [discriminate|].
  simpl.
  destruct (get_model _ _ _ _) as [e|net]; [discriminate|].
  change (hook_layers net
            (Namespace.with_momentum m
               (Namespace.with_optim o (Namespace.with_scheduler s h))))
    with (hook_layers net h).
  destruct (hook_layers net h) as [e|taps]; [discriminate|].
  destruct (neural_losses !! Namespace.neural_loss h) as [cls|]; [|discriminate].
  inversion Hinit; subst. eexists. split; reflexivity.
Qed.

(** *** Construction *)

Lemma neural_losses_lookup kind :
  neural_losses !! kind =
  if decide (kind = "logCKA"%string) then Some LogCenteredKernelAlignment
  else if decide (kind = "CKA"%string) then Some CenteredKernelAlignment
  else None.
Proof.
  unfold neural_losses.
  destruct (decide (kind = "logCKA"%string)) as [->|H1].
  { apply lookup_insert_eq. }
  rewrite lookup_insert_ne by congruence.
  destruct (decide (kind = "CKA"%string)) as [->|H2].
  { apply lookup_insert_eq. }
  rewrite lookup_insert_ne by congruence. apply lookup_empty.
Qed.

Lemma bind_get_model_ok (kwargs : gmap string (option pyobj)) :
  names_parameter kwargs = false ->
  bind_get_model [] kwargs = inr ([], kwargs).
Proof. intros Hk. unfold bind_get_model. rewrite Hk. reflexivity. Qed.

Lemma bind_get_model_inr args kwargs args' kwargs' :
  bind_get_model args kwargs = inr (args', kwargs') ->
  args = [] /\ args' = [] /\ kwargs' = kwargs /\ names_parameter kwargs = false.
Proof.
  unfold bind_get_model. destruct args; [|discriminate].
  destruct (names_parameter kwargs); [discriminate|].
  intros Heq. inversion Heq; subst. auto.
Qed.

(** C8. Construction looks the configured kind up in [neural_losses]. For
    a constructor call with no further positional argument and no keyword
    that names a parameter: once the model is
    built and its regions hooked, kind ['CKA'] gives a wrapper with the
    linear alignment loss, kind ['logCKA'] one with the logarithmic loss,
    and any other kind makes construction fail with [KeyError] on that
    kind. Whatever the call, construction never succeeds with another
    kind. *)
Theorem init_selects_neural_loss hparams kwargs :
  (forall net taps,
      names_parameter kwargs = false ->
      get_model (Namespace.arch hparams) (Namespace.pretrained hparams) [] kwargs
      = inr net ->
      hook_layers net hparams = inr taps ->
      (Namespace.neural_loss hparams = "CKA"%string ->
       exists self st, init hparams [] kwargs = inr (self, st)
                       /\ neural_loss self = CenteredKernelAlignment)
      /\ (Namespace.neural_loss hparams = "logCKA"%string ->
          exists self st, init hparams [] kwargs = inr (self, st)
                          /\ neural_loss self = LogCenteredKernelAlignment)
      /\ (Namespace.neural_loss hparams <> "CKA"%string ->
          Namespace.neural_loss hparams <> "logCKA"%string ->
          init hparams [] kwargs = inl (KeyError (Namespace.neural_loss hparams))))
  /\ (forall args,
        Namespace.neural_loss hparams <> "CKA"%string ->
        Namespace.neural_loss hparams <> "logCKA"%string ->
        is_ok (init hparams args kwargs) = false).
Proof.
  split.
  - intros net taps Hk Hnet Htaps. unfold init.
    rewrite (bind_get_model_ok kwargs Hk), Hnet, Htaps.
    rewrite neural_losses_lookup. repeat split.
    + intros ->. simpl. do 2 eexists. split; reflexivity.
    + intros ->. simpl. do 2 eexists. split; reflexivity.
    + intros H1 H2. rewrite !decide_False by assumption. reflexivity.
  - intros args H1 H2. unfold init.
    destruct (bind_get_model args kwargs) as [e|[args' kwargs']]; [reflexivity|].
    destruct (get_model _ _ _ _) as [e|net]; [reflexivity|].
    destruct (hook_layers net hparams) as [e|taps]; [reflexivity|].
    rewrite neural_losses_lookup, !decide_False by assumption. reflexivity.
Qed.

End Model_Lightning_claims.

(** ** The router on batches with a neural element *)

Section Neural_elements.
Context `{Framework}.
#[local] Existing Instance M_ret.
#[local] Existing Instance M_bind.

(** An element tagged with the string ['NeuralData'] after an
    ['ImageNet'] element changes nothing: the step is the step on the
    ['ImageNet'] element alone. *)
Lemma training_step_string_neural_dropped self srcs0 d0 srcs1 d1 batch_idx st :
  training_step self
    [{| sources := TagStr "ImageNet" :: srcs0; data := d0 |};
     {| sources := TagStr "NeuralData" :: srcs1; data := d1 |}] batch_idx st
  = training_step self
      [{| sources := TagStr "ImageNet" :: srcs0; data := d0 |}] batch_idx st.
Proof.
  unfold training_step. apply bind_run.
  change (enumerate [{| sources := TagStr "ImageNet" :: srcs0; data := d0 |};
                     {| sources := TagStr "NeuralData" :: srcs1; data := d1 |}])
    with ([(0%nat, {| sources := TagStr "ImageNet" :: srcs0; data := d0 |})] ++
          [(1%nat, {| sources := TagStr "NeuralData" :: srcs1; data := d1 |})]).
  rewrite training_loop_app.
  change (enumerate [{| sources := TagStr "ImageNet" :: srcs0; data := d0 |}])
    with [(0%nat, {| sources := TagStr "ImageNet" :: srcs0; data := d0 |})].
  etrans.
  { apply bind_ext. intros losses st'.
    apply (training_loop_skip _ _ _ _ (TagStr "NeuralData"));
      [reflexivity|discriminate|discriminate]. }
  etrans; [apply bind_ret_r|].
  assert (Htags : forall i batch_,
             (i, batch_) ∈ [(0%nat, {| sources := TagStr "ImageNet" :: srcs0;
                                      data := d0 |})] ->
             exists s, sources batch_ !! 0%nat = Some (TagStr s)).
  { intros i batch_ Hin. apply list_elem_of_singleton in Hin.
    inversion Hin; subst. eexists. reflexivity. }
  rewrite !training_loop_string_tags by exact Htags. reflexivity.
Qed.

(** An element tagged with the list [['NeuralData']] that is alone in
    its batch takes the similarity branch, which reads [batch[1]]: the
    step raises [IndexError]. *)
Lemma training_step_list_neural_alone self w srcs d batch_idx st :
  training_step (with_loss_weights [w] self)
    [{| sources := TagList ["NeuralData"%string] :: srcs; data := d |}] batch_idx st
  = (inl IndexError, st).
Proof. reflexivity. Qed.

End Neural_elements.

(** ** Concrete steps *)

Section Concrete.
Import Demo.
#[local] Existing Instance M_ret.
#[local] Existing Instance M_bind.

(** C1. One step on a classification element and a neural element, with
    weights 2 and 1 and task losses 3 and 4. The weighted sum of the two
    task losses is 10; the step returns 6, the classification term alone,
    because the string ['NeuralData'] is compared with a list. When the
    neural element carries the list [['NeuralData']] the branch is taken
    but reads [batch[1]] instead of the element: alone in its batch, with
    its one weight, the element makes the step raise [IndexError]. *)
Theorem training_step_neural_task_not_summed :
  cross_entropy 0 3 = inr 3%Q
  /\ alignment CenteredKernelAlignment (1, 4) (Some 1) = inr 4%Q
  /\ py_sum [smul 2%Q 3%Q; smul 1%Q 4%Q] = 10%Q
  /\ fst (training_step (wrapper [2; 1]%Q)
            [tagged "ImageNet" 0 3; tagged "NeuralData" 1 4] 0 fresh)
     = inr 6%Q
  /\ recognized (list_tagged ["NeuralData"%string] 1 4) = true
  /\ fst (training_step (wrapper [1%Q])
            [list_tagged ["NeuralData"%string] 1 4] 0 fresh)
     = inl IndexError.
Proof. repeat split. Qed.

(** An element tagged ['CIFAR'] after an ['ImageNet'] element: the step
    on the two is the loop over the first alone. *)
Lemma training_step_skips_unknown_tag_witness :
  training_step (wrapper [2; 1]%Q)
    [tagged "ImageNet" 0 3; tagged "CIFAR" 1 4] 0 fresh
  = (losses ← training_loop (wrapper [2; 1]%Q)
                [tagged "ImageNet" 0 3; tagged "CIFAR" 1 4]
                [(0%nat, tagged "ImageNet" 0 3)] [];
     mret (py_sum losses)) fresh.
Proof.
  apply (training_step_skips_unknown_tag (wrapper [2; 1]%Q)
           [tagged "ImageNet" 0 3; tagged "CIFAR" 1 4] 0 1
           (tagged "CIFAR" 1 4) (TagStr "CIFAR") fresh).
  - reflexivity.
  - reflexivity.
  - discriminate.
  - discriminate.
Defined.

Lemma training_step_similarity_unreachable_witness :
  (forall s, py_eq (TagStr s) (TagList ["NeuralData"%string]) = false)
  /\ training_step (wrapper [2; 1]%Q)
       [tagged "ImageNet" 0 3; tagged "NeuralData" 1 4] 0 fresh
     = imagenet_weighted_sum (wrapper [2; 1]%Q)
         [tagged "ImageNet" 0 3; tagged "NeuralData" 1 4] fresh.
Proof.
  apply (training_step_similarity_unreachable (wrapper [2; 1]%Q)
           [tagged "ImageNet" 0 3; tagged "NeuralData" 1 4] 0 fresh).
  intros batch_ Hin.
  apply elem_of_cons in Hin as [->|Hin]; [eexists; reflexivity|].
  apply elem_of_cons in Hin as [->|Hin]; [eexists; reflexivity|].
  apply elem_of_nil in Hin. contradiction.
Defined.

(** C5, as stated, fails: with three weights and two active tasks the
    step raises nothing and returns the sum weighted by the first two
    weights. *)
Lemma training_step_three_weights_two_tasks :
  length (loss_weights (wrapper [2; 1; 7]%Q)) = 3%nat
  /\ active_tasks [tagged "ImageNet" 0 3; tagged "ImageNet" 1 4] = 2%nat
  /\ fst (training_step (wrapper [2; 1; 7]%Q)
            [tagged "ImageNet" 0 3; tagged "ImageNet" 1 4] 0 fresh)
     = inr 10%Q
  /\ ~ (forall (self : Model_Lightning) batch batch_idx st,
          length (loss_weights self) <> active_tasks batch ->
          is_ok (fst (training_step self batch batch_idx st)) = false).
Proof.
  repeat split.
  intros Hclaim.
  specialize (Hclaim (wrapper [2; 1; 7]%Q)
                [tagged "ImageNet" 0 3; tagged "ImageNet" 1 4] 0 fresh).
  assert (Hne : length (loss_weights (wrapper [2; 1; 7]%Q))
                <> active_tasks [tagged "ImageNet" 0 3; tagged "ImageNet" 1 4])
    by (vm_compute; lia).
  specialize (Hclaim Hne). vm_compute in Hclaim. discriminate Hclaim.
Qed.

(** One weight for two classification elements: [IndexError] at the
    second. Three weights for two classification elements: the step with
    the first two weights, and the value 2 * 3 + 1 * 4. *)
Lemma training_step_weights_by_position_witness :
  (training_step (wrapper [2%Q])
     [tagged "ImageNet" 0 3; tagged "ImageNet" 1 4] 0 fresh
   = (training_loop (wrapper [2%Q])
        [tagged "ImageNet" 0 3; tagged "ImageNet" 1 4]
        [(0%nat, tagged "ImageNet" 0 3)] [] ≫= fun _ => raise IndexError) fresh
   /\ is_ok (fst (training_step (wrapper [2%Q])
                    [tagged "ImageNet" 0 3; tagged "ImageNet" 1 4] 0 fresh))
      = false)
  /\ training_step (with_loss_weights ([2; 1] ++ [7])%Q (wrapper [2; 1]%Q))
       [tagged "ImageNet" 0 3; tagged "ImageNet" 1 4] 0 fresh
     = training_step (wrapper [2; 1]%Q)
         [tagged "ImageNet" 0 3; tagged "ImageNet" 1 4] 0 fresh
  /\ training_step (with_loss_weights (take 2 [2; 1; 7]%Q) (wrapper [2; 1; 7]%Q))
       [tagged "ImageNet" 0 3; tagged "ImageNet" 1 4] 0 fresh
     = training_step (wrapper [2; 1; 7]%Q)
         [tagged "ImageNet" 0 3; tagged "ImageNet" 1 4] 0 fresh
  /\ (training_step (wrapper [2; 1; 7]%Q)
        [tagged "ImageNet" 0 3; tagged "ImageNet" 1 4] 0 fresh
      = (inr (py_sum (zip_with smul [2; 1; 7]%Q [3; 4]%Q)),
         (classify_all (wrapper [2; 1; 7]%Q) [(0, 3); (1, 4)] fresh).2)
      /\ is_ok (fst (training_step (wrapper [2; 1; 7]%Q)
                       [tagged "ImageNet" 0 3; tagged "ImageNet" 1 4] 0 fresh))
         = true).
Proof.
  split; [|split; [|split]].
  - apply (proj1 (training_step_weights_by_position (wrapper [2%Q])
                    [tagged "ImageNet" 0 3; tagged "ImageNet" 1 4] 0 fresh)
             1%nat (tagged "ImageNet" 1 4)).
    + reflexivity.
    + reflexivity.
    + simpl. lia.
  - apply (proj1 (proj2 (training_step_weights_by_position (wrapper [2; 1]%Q)
                           [tagged "ImageNet" 0 3; tagged "ImageNet" 1 4] 0 fresh))
             [7%Q]).
    simpl. lia.
  - apply (proj1 (proj2 (proj2 (training_step_weights_by_position
                                  (wrapper [2; 1; 7]%Q)
                                  [tagged "ImageNet" 0 3; tagged "ImageNet" 1 4]
                                  0 fresh)))).
    simpl. lia.
  - apply (proj2 (proj2 (proj2 (training_step_weights_by_position
                                  (wrapper [2; 1; 7]%Q)
                                  [tagged "ImageNet" 0 3; tagged "ImageNet" 1 4]
                                  0 fresh)))
             [3; 4]%Q
             (classify_all (wrapper [2; 1; 7]%Q) [(0, 3); (1, 4)] fresh).2).
    + simpl. lia.
    + repeat constructor.
    + vm_compute. reflexivity.
Defined.

(** C7, as stated, fails: with the learning rate -0.1 the constructor of
    the optimiser raises [ValueError], and no optimiser or schedule is
    returned. *)
Lemma configure_optimizers_negative_lr :
  (exists msg,
     configure_optimizers
       (with_hparams (Namespace.with_lr (-1 # 10) Namespace.defaults) default_wrapper)
     = inl (ValueError msg))
  /\ ~ (forall self : Model_Lightning,
          exists optimizer sched,
            configure_optimizers self = inr ([optimizer], [sched])).
Proof.
  split; [eexists; reflexivity|].
  intros Hclaim.
  destruct (Hclaim (with_hparams (Namespace.with_lr (-1 # 10) Namespace.defaults)
                      default_wrapper)) as (optimizer & sched & Heq).
  vm_compute in Heq. discriminate Heq.
Qed.

(** The default configuration gets its optimiser and schedule; the
    learning rate -0.1 and the weight decay -1 get [ValueError]. *)
Lemma configure_optimizers_sgd_steplr_witness :
  (exists optimizer sched,
     configure_optimizers default_wrapper = inr ([optimizer], [sched])
     /\ sgd_params optimizer = parameters (model default_wrapper)
     /\ sgd_lr optimizer = Namespace.lr (hparams default_wrapper)
     /\ sgd_weight_decay optimizer = Namespace.weight_decay (hparams default_wrapper)
     /\ sgd_momentum optimizer = (9 # 10)%Q
     /\ sgd_nesterov optimizer = true
     /\ steplr_optimizer (scheduler sched) = optimizer
     /\ steplr_step_size (scheduler sched) = Namespace.step_size (hparams default_wrapper)
     /\ interval sched = "epoch"%string)
  /\ (exists msg,
        configure_optimizers
          (with_hparams (Namespace.with_lr (-1 # 10) Namespace.defaults)
             default_wrapper)
        = inl (ValueError msg))
  /\ (exists msg,
        configure_optimizers
          (with_hparams (Namespace.with_weight_decay (-1) Namespace.defaults)
             default_wrapper)
        = inl (ValueError msg)).
Proof.
  split; [|split].
  - apply (proj1 (configure_optimizers_sgd_steplr default_wrapper)).
    + vm_compute. discriminate.
    + vm_compute. discriminate.
    + reflexivity.
  - apply (proj2 (configure_optimizers_sgd_steplr
                    (with_hparams (Namespace.with_lr (-1 # 10) Namespace.defaults)
                       default_wrapper))).
    left. reflexivity.
  - apply (proj2 (configure_optimizers_sgd_steplr
                    (with_hparams (Namespace.with_weight_decay (-1) Namespace.defaults)
                       default_wrapper))).
    right. left. reflexivity.
Defined.

Lemma configure_optimizers_ignores_momentum_optim_scheduler_witness :
  exists self',
    init (Namespace.with_momentum (1 # 2)
            (Namespace.with_optim "adam"
               (Namespace.with_scheduler "StepLR" Namespace.defaults)))
         [] ∅
    = inr (self', fresh)
    /\ configure_optimizers self' = configure_optimizers default_wrapper.
Proof.
  apply (proj2 (configure_optimizers_ignores_momentum_optim_scheduler
                  (1 # 2) "adam" "StepLR")
           Namespace.defaults [] ∅ default_wrapper fresh).
  vm_compute. reflexivity.
Defined.

Lemma init_selects_neural_loss_witness :
  (exists self st, init Namespace.defaults [] ∅ = inr (self, st)
                   /\ neural_loss self = CenteredKernelAlignment)
  /\ (exists self st,
        init (Namespace.with_neural_loss "logCKA" Namespace.defaults) [] ∅
        = inr (self, st)
        /\ neural_loss self = LogCenteredKernelAlignment)
  /\ init (Namespace.with_neural_loss "cosine" Namespace.defaults) [] ∅
     = inl (KeyError "cosine")
  /\ is_ok (init (Namespace.with_neural_loss "cosine" Namespace.defaults) [tt] ∅)
     = false.
Proof.
  assert (Hk : @names_parameter framework ∅ = false) by (vm_compute; reflexivity).
  split; [|split; [|split]].
  - apply (proj1 (proj1 (@init_selects_neural_loss framework Namespace.defaults ∅)
                    tt (regions fresh) Hk eq_refl eq_refl)).
    reflexivity.
  - apply (proj1 (proj2 (proj1 (@init_selects_neural_loss framework
                                  (Namespace.with_neural_loss "logCKA" Namespace.defaults)
                                  ∅)
                           tt (regions fresh) Hk eq_refl eq_refl))).
    reflexivity.
  - apply (proj2 (proj2 (proj1 (@init_selects_neural_loss framework
                                  (Namespace.with_neural_loss "cosine" Namespace.defaults)
                                  ∅)
                           tt (regions fresh) Hk eq_refl eq_refl))).
    + simpl. discriminate.
    + simpl. discriminate.
  - apply (proj2 (@init_selects_neural_loss framework
                    (Namespace.with_neural_loss "cosine" Namespace.defaults) ∅)
             [tt]).
    + simpl. discriminate.
    + simpl. discriminate.
Defined.

End Concrete.

(** * Further properties of the code *)

(** ** Evaluation steps *)

Section Evaluation_steps.
Context `{Framework}.
#[local] Existing Instance M_ret.
#[local] Existing Instance M_bind.

Lemma validation_loop_cons self batch i batch_ entries mode losses st :
  validation_loop self batch ((i, batch_) :: entries) mode losses st =
  (tag ← lift (getitem (sources batch_) 0);
   if py_eq tag (TagStr "ImageNet") then raise TypeError
   else if py_eq tag (TagList ["NeuralData"%string]) then raise (NameError "region")
   else validation_loop self batch entries mode losses) st.
Proof. reflexivity. Qed.

Lemma validation_loop_outcome self batch entries mode mode' losses st :
  snd (validation_loop self batch entries mode losses st) = st
  /\ (fst (validation_loop self batch entries mode losses st) = inr losses
      \/ fst (validation_loop self batch entries mode losses st) = inl TypeError
      \/ fst (validation_loop self batch entries mode losses st)
         = inl (NameError "region")
      \/ fst (validation_loop self batch entries mode losses st) = inl IndexError)
  /\ validation_loop self batch entries mode losses st
     = validation_loop self batch entries mode' losses st.
Proof.
  induction entries as [|[i batch_] entries IH].
  - simpl. auto.
  - rewrite !validation_loop_cons. unfold getitem.
    destruct (sources batch_ !! 0%nat) as [tag|]; [|simpl; auto 6].
    rewrite !bind_lift_inr.
    destruct (py_eq tag (TagStr "ImageNet")); [simpl; auto 6|].
    destruct (py_eq tag (TagList ["NeuralData"%string])); [simpl; auto 6|].
    exact IH.
Qed.

(** [validation_step] never runs the model and never logs: whatever the
    batch, the taps and the log are afterwards what they were before. Its
    outcome is 0, the sum of no loss, or one of [TypeError],
    [NameError] on [region] and [IndexError]; and the mode it is given
    plays no part in it. *)
Theorem validation_step_inert self batch batch_idx dataloader_idx mode st :
  snd (validation_step self batch batch_idx dataloader_idx mode st) = st
  /\ (fst (validation_step self batch batch_idx dataloader_idx mode st) = inr szero
      \/ fst (validation_step self batch batch_idx dataloader_idx mode st)
         = inl TypeError
      \/ fst (validation_step self batch batch_idx dataloader_idx mode st)
         = inl (NameError "region")
      \/ fst (validation_step self batch batch_idx dataloader_idx mode st)
         = inl IndexError)
  /\ (forall mode',
        validation_step self batch batch_idx dataloader_idx mode' st
        = validation_step self batch batch_idx dataloader_idx mode st).
Proof.
  unfold validation_step.
  destruct (validation_loop_outcome self batch (enumerate batch) mode mode [] st)
    as (Hst & Hres & _).
  split; [|split].
  - unfold mbind, M_bind.
    destruct (validation_loop self batch (enumerate batch) mode [] st)
      as [[e|x] st'] eqn:E; simpl in *; exact Hst.
  - unfold mbind, M_bind.
    destruct (validation_loop self batch (enumerate batch) mode [] st)
      as [[e|x] st'] eqn:E; simpl in *.
    + destruct Hres as [Hr|[Hr|[Hr|Hr]]]; try discriminate;
        inversion Hr; subst; auto 6.
    + destruct Hres as [Hr|[Hr|[Hr|Hr]]]; try discriminate.
      inversion Hr; subst. left. reflexivity.
  - intros mode'. apply bind_run.
    apply (validation_loop_outcome self batch (enumerate batch) mode' mode [] st).
Qed.

Lemma validation_loop_skipped self batch entries mode losses st :
  Forall (fun e => skipped e.2 = true) entries ->
  validation_loop self batch entries mode losses st = (inr losses, st).
Proof.
  induction 1 as [|[i batch_] entries Hskip _ IH]; [reflexivity|].
  rewrite validation_loop_cons. unfold skipped in Hskip. simpl in Hskip.
  unfold getitem. destruct (sources batch_ !! 0%nat) as [tag|]; [|discriminate].
  rewrite bind_lift_inr.
  apply andb_prop in Hskip as [H1 H2].
  apply negb_true_iff in H1, H2. rewrite H1, H2. exact IH.
Qed.

Lemma validation_loop_app self batch entries1 entries2 mode losses st :
  Forall (fun e => skipped e.2 = true) entries1 ->
  validation_loop self batch (entries1 ++ entries2) mode losses st
  = validation_loop self batch entries2 mode losses st.
Proof.
  induction 1 as [|[i batch_] entries Hskip _ IH]; [reflexivity|].
  rewrite <- app_comm_cons, validation_loop_cons.
  unfold skipped in Hskip. simpl in Hskip.
  unfold getitem. destruct (sources batch_ !! 0%nat) as [tag|]; [|discriminate].
  rewrite bind_lift_inr.
  apply andb_prop in Hskip as [H1 H2].
  apply negb_true_iff in H1, H2. rewrite H1, H2. exact IH.
Qed.

Lemma enumerate_take_skipped (batch : list sub_batch) i :
  Forall (fun batch_ => skipped batch_ = true) (take i batch) ->
  Forall (fun e : nat * sub_batch => skipped e.2 = true) (take i (enumerate batch)).
Proof.
  intros Hall. apply Forall_forall. intros [j b] Hin.
  apply list_elem_of_lookup in Hin as [k Hk].
  rewrite lookup_take_Some in Hk. destruct Hk as [Hk Hlt].
  unfold enumerate in Hk. rewrite list_lookup_imap in Hk.
  destruct (batch !! k) as [b'|] eqn:Hb; [|discriminate].
  inversion Hk; subst. simpl.
  rewrite Forall_forall in Hall. apply Hall.
  apply list_elem_of_lookup. exists j. rewrite lookup_take_Some. auto.
Qed.

(** What [validation_step] does is settled by the first element of the
    batch that is not passed over. If that element is tagged ['ImageNet']
    the step raises [TypeError] (indexing the batch with a string); if it
    is tagged [['NeuralData']] the step raises [NameError] (the unbound
    name [region]); if it has no source tag at all the step raises
    [IndexError]. If every element is passed over the step returns 0. *)
Theorem validation_step_first_element self batch batch_idx dataloader_idx mode st :
  (forall i batch_,
      batch !! i = Some batch_ ->
      Forall (fun b => skipped b = true) (take i batch) ->
      (sources batch_ !! 0%nat = Some (TagStr "ImageNet") ->
       validation_step self batch batch_idx dataloader_idx mode st
       = (inl TypeError, st))
      /\ (sources batch_ !! 0%nat = Some (TagList ["NeuralData"%string]) ->
          validation_step self batch batch_idx dataloader_idx mode st
          = (inl (NameError "region"), st))
      /\ (sources batch_ = [] ->
          validation_step self batch batch_idx dataloader_idx mode st
          = (inl IndexError, st)))
  /\ (Forall (fun b => skipped b = true) batch ->
      validation_step self batch batch_idx dataloader_idx mode st = (inr szero, st)).
Proof.
  split.
  - intros i batch_ Hb Hpre.
    assert (Hrun : forall r,
               validation_loop self batch [(i, batch_)] mode [] st = (inl r, st) ->
               (forall rest, validation_loop self batch ((i, batch_) :: rest) mode [] st
                             = (inl r, st)) ->
               validation_step self batch batch_idx dataloader_idx mode st
               = (inl r, st)).
    { intros r _ Hcons. unfold validation_step, mbind, M_bind.
      rewrite (enumerate_split batch i batch_ Hb).
      rewrite validation_loop_app by (apply enumerate_take_skipped; exact Hpre).
      rewrite Hcons. reflexivity. }
    repeat split.
    + intros Htag. apply Hrun; [|intros rest];
        rewrite validation_loop_cons, (getitem_Some _ _ _ Htag); reflexivity.
    + intros Htag. apply Hrun; [|intros rest];
        rewrite validation_loop_cons, (getitem_Some _ _ _ Htag); reflexivity.
    + intros Hnil. apply Hrun; [|intros rest];
        rewrite validation_loop_cons, Hnil; reflexivity.
  - intros Hall. unfold validation_step, mbind, M_bind.
    rewrite validation_loop_skipped; [reflexivity|].
    apply Forall_forall. intros [j b] Hin. simpl.
    apply enumerate_elem_of in Hin. rewrite Forall_forall in Hall.
    apply Hall. eapply list_elem_of_lookup_2. exact Hin.
Qed.

End Evaluation_steps.

(** ** Forward passes, taps and the two losses *)

Section Losses.
Context `{Framework}.
#[local] Existing Instance M_ret.
#[local] Existing Instance M_bind.

Lemma calls_of_cons region name input out calls :
  calls_of region ((name, input, out) :: calls) =
  if decide (name = region) then (input, out) :: calls_of region calls
  else calls_of region calls.
Proof. unfold calls_of. simpl. destruct (decide (name = region)); reflexivity. Qed.

Lemma fire_taps_lookup (taps : gmap string (Hook.t tensor)) calls region :
  fire_taps taps calls !! region =
  (fun tap => Hook.fire region tap (calls_of region calls)) <$> taps !! region.
Proof.
  revert taps. induction calls as [|[[name input] out] calls IH]; intros taps.
  - simpl. destruct (taps !! region); reflexivity.
  - change (fire_taps taps ((name, input, out) :: calls))
      with (fire_taps (alter (fun h => Hook.hook_fn h name input out) name taps) calls).
    rewrite IH, lookup_alter, calls_of_cons.
    destruct (decide (name = region)) as [->|Hne]; [|reflexivity].
    destruct (taps !! region); reflexivity.
Qed.

Lemma fire_hook {T} module (tap : Hook.t T) calls :
  Hook.hook (Hook.fire module tap calls) = Hook.hook tap.
Proof.
  revert tap. induction calls as [|c calls IH]; intros tap; [reflexivity|].
  change (Hook.fire module tap (c :: calls))
    with (Hook.fire module (Hook.hook_fn tap module c.1 c.2) calls).
  rewrite IH. reflexivity.
Qed.

(** A forward pass changes the tap table in one way only: each tap whose
    sub-module ran now holds the output of that sub-module's last call. A
    tap whose sub-module did not run keeps the value it had, and no tap is
    added, removed or registered anew. *)
Theorem fire_taps_values (taps : gmap string (Hook.t tensor)) calls :
  (forall region,
      Hook.output <$> fire_taps taps calls !! region
      = (fun tap => tap_value tap (calls_of region calls)) <$> taps !! region)
  /\ Hook.hook <$> fire_taps taps calls = Hook.hook <$> taps
  /\ dom (fire_taps taps calls) = dom taps.
Proof.
  assert (Hhook : Hook.hook <$> fire_taps taps calls = Hook.hook <$> taps).
  { apply map_eq. intros region. rewrite !lookup_fmap, fire_taps_lookup.
    destruct (taps !! region); simpl; [|reflexivity]. rewrite fire_hook. reflexivity. }
  split; [|split].
  - intros region. rewrite fire_taps_lookup.
    destruct (taps !! region) as [tap|]; simpl; [|reflexivity].
    rewrite fire_output. reflexivity.
  - exact Hhook.
  - rewrite <- (dom_fmap_L Hook.hook (fire_taps taps calls)), Hhook.
    apply dom_fmap_L.
Qed.

Lemma call_model_run self X st :
  call_model self X st
  = ((forward (model self) X).2, after_forward st (forward (model self) X).1).
Proof. unfold call_model. destruct (forward (model self) X); reflexivity. Qed.

(** [classification] runs the network once on [X], takes the cross
    entropy, asks once for the top 5 predictions and divides the counts of
    correct ones among the first 1 and the first 5 by the number of rows of
    the output. When all of this succeeds it returns the cross entropy and
    makes exactly one call to [log_dict], with the three metrics
    [<mode>_loss], [<mode>_acc1], [<mode>_acc5], logged per epoch only.
    An output with no rows raises [ZeroDivisionError] although the loss was
    computed; whenever an exception comes out nothing has been logged.
    Either way the taps hold what the forward pass left. *)
Theorem classification_outcome self X Y mode st :
  classification self (X, Y) mode st =
  let st1 := after_forward st (forward (model self) (inl X)).1 in
  match (forward (model self) (inl X)).2 with
  | inl e => (inl e, st1)
  | inr Y_hat =>
      match cross_entropy Y_hat Y with
      | inl e => (inl e, st1)
      | inr loss =>
          match topk_correct Y_hat Y 5 with
          | inl e => (inl e, st1)
          | inr correct =>
              if bool_decide (shape0 Y_hat = 0) then (inl ZeroDivisionError, st1)
              else
                (inr loss,
                 after_log st1
                   (classification_log mode loss
                      (inject_Z (correct 1%Z) / inject_Z (shape0 Y_hat))%Q
                      (inject_Z (correct 5%Z) / inject_Z (shape0 Y_hat))%Q))
          end
      end
  end.
Proof.
  unfold classification, mbind, M_bind. rewrite call_model_run. cbn -[accuracy].
  destruct (forward (model self) (inl X)).2 as [e|Y_hat]; [reflexivity|].
  unfold lift. destruct (cross_entropy Y_hat Y) as [e|loss]; [reflexivity|].
  unfold accuracy. change (foldl Z.max 1 [5]) with 5.
  destruct (topk_correct Y_hat Y 5) as [e|correct]; [reflexivity|].
  case_bool_decide; reflexivity.
Qed.

(** [similarity] runs the network on [X], then reads the tap of [region].
    A region without a tap raises [KeyError] only after the forward pass
    has run. Otherwise the loss is computed against what the tap holds at
    that moment: the last output of the region in this pass, or, when the
    region did not run in this pass, whatever the tap held before, which
    is [None] for a tap that never fired. On success exactly one call to
    [log_dict] is made, with the one metric [<mode>_<name of the loss>]. *)
Theorem similarity_outcome self batch region mode st :
  similarity self batch region mode st =
  let calls := (forward (model self) (inr (sources batch))).1 in
  let st1 := after_forward st calls in
  match (forward (model self) (inr (sources batch))).2 with
  | inl e => (inl e, st1)
  | inr _ =>
      match regions st !! region with
      | None => (inl (KeyError region), st1)
      | Some tap =>
          match alignment (neural_loss self) (data batch)
                  (tap_value tap (calls_of region calls)) with
          | inl e => (inl e, st1)
          | inr loss => (inr loss, after_log st1 (similarity_log self mode loss))
          end
      end
  end.
Proof.
  unfold similarity, mbind, M_bind. rewrite call_model_run. simpl.
  destruct (forward (model self) (inr (sources batch))).2 as [e|out]; [reflexivity|].
  unfold region_tap. simpl. rewrite fire_taps_lookup.
  destruct (regions st !! region) as [tap|]; simpl; [|reflexivity].
  rewrite fire_output. fold (tap_value tap
    (calls_of region (forward (model self) (inr (sources batch))).1)).
  unfold lift.
  destruct (alignment _ _ _) as [e|loss]; reflexivity.
Qed.

End Losses.

(** ** Training steps *)

Section Training_steps.
Context `{Framework}.
#[local] Existing Instance M_ret.
#[local] Existing Instance M_bind.

Lemma follows_refl st : follows st st.
Proof. split; reflexivity. Qed.

Lemma follows_trans st1 st2 st3 : follows st1 st2 -> follows st2 st3 -> follows st1 st3.
Proof.
  intros [Hh1 Hl1] [Hh2 Hl2]. split.
  - rewrite Hh2. exact Hh1.
  - etrans; eassumption.
Qed.

Lemma after_forward_follows st calls : follows st (after_forward st calls).
Proof.
  split; simpl; [|reflexivity].
  apply (fire_taps_values (regions st) calls).
Qed.

Lemma after_log_follows st c : follows st (after_log st c).
Proof. split; simpl; [reflexivity|]. apply prefix_app_r. reflexivity. Qed.

Lemma bind_follows {A B} (c : M A) (f : A -> M B) st :
  (forall st, follows st (c st).2) ->
  (forall x st, follows st (f x st).2) ->
  follows st ((c ≫= f) st).2.
Proof.
  intros Hc Hf. unfold mbind, M_bind. specialize (Hc st).
  destruct (c st) as [[e|x] st']; simpl in *; [exact Hc|].
  eapply follows_trans; [exact Hc|apply Hf].
Qed.

Lemma lift_follows {A} (r : result A) st : follows st (lift r st).2.
Proof. apply follows_refl. Qed.

Lemma classification_follows self xy mode st :
  follows st (classification self xy mode st).2.
Proof.
  destruct xy as [X Y]. rewrite classification_outcome. cbv zeta.
  destruct (forward (model self) (inl X)).2 as [e|Y_hat];
    [apply after_forward_follows|].
  destruct (cross_entropy Y_hat Y) as [e|loss]; [apply after_forward_follows|].
  destruct (topk_correct Y_hat Y 5) as [e|correct]; [apply after_forward_follows|].
  case_bool_decide; [apply after_forward_follows|].
  eapply follows_trans; [apply after_forward_follows|apply after_log_follows].
Qed.

Lemma similarity_follows self batch region mode st :
  follows st (similarity self batch region mode st).2.
Proof.
  rewrite similarity_outcome. cbv zeta.
  destruct (forward (model self) (inr (sources batch))).2 as [e|out];
    [apply after_forward_follows|].
  destruct (regions st !! region) as [tap|]; [|apply after_forward_follows].
  destruct (alignment _ _ _) as [e|loss]; [apply after_forward_follows|].
  eapply follows_trans; [apply after_forward_follows|apply after_log_follows].
Qed.

Lemma training_loop_follows self batch entries :
  forall losses st, follows st (training_loop self batch entries losses st).2.
Proof.
  induction entries as [|[i batch_] entries IH]; intros losses st.
  - apply follows_refl.
  - rewrite training_loop_cons.
    apply bind_follows; [intros; apply lift_follows|]. intros tag st1.
    destruct (py_eq tag (TagStr "ImageNet")).
    { apply bind_follows; [intros; apply lift_follows|]. intros w st2.
      apply bind_follows; [intros; apply classification_follows|]. intros l st3.
      apply IH. }
    destruct (py_eq tag (TagList ["NeuralData"%string])).
    { apply bind_follows; [intros; apply lift_follows|]. intros w st2.
      apply bind_follows; [intros; apply lift_follows|]. intros b1 st3.
      apply bind_follows; [intros; apply similarity_follows|]. intros l st4.
      apply IH. }
    apply IH.
Qed.

(** Whatever a training step does and however it ends, the tap table
    afterwards has the same regions and the same registrations as before
    (only stored outputs change), and the log of [log_dict] calls has the
    old log as a prefix: nothing logged is ever removed or rewritten. *)
Theorem training_step_keeps_taps_and_log self batch batch_idx st :
  Hook.hook <$> regions (training_step self batch batch_idx st).2
  = Hook.hook <$> regions st
  /\ dom (regions (training_step self batch batch_idx st).2) = dom (regions st)
  /\ logged st `prefix_of` logged (training_step self batch batch_idx st).2.
Proof.
  assert (Hf : follows st (training_step self batch batch_idx st).2).
  { unfold training_step. apply bind_follows.
    - intros st0. apply training_loop_follows.
    - intros x st0. apply follows_refl. }
  destruct Hf as [Hh Hl]. split; [exact Hh|split; [|exact Hl]].
  rewrite <- (dom_fmap_L Hook.hook (regions _)), Hh. apply dom_fmap_L.
Qed.

Lemma training_loop_skipped self batch entries losses st :
  Forall (fun e => skipped e.2 = true) entries ->
  training_loop self batch entries losses st = (inr losses, st).
Proof.
  induction 1 as [|[i batch_] entries Hskip _ IH]; [reflexivity|].
  unfold skipped in Hskip. simpl in Hskip.
  destruct (sources batch_ !! 0%nat) as [tag|] eqn:Htag; [|discriminate].
  apply andb_prop in Hskip as [H1 H2].
  apply negb_true_iff in H1, H2. unfold py_eq in H1, H2.
  apply bool_decide_eq_false in H1, H2.
  rewrite (training_loop_skip self batch i batch_ tag) by assumption. exact IH.
Qed.

(** A batch in which the router recognises no element, the empty batch
    among them, costs nothing and changes nothing: the step returns 0,
    whatever the weights are, without running the model or logging. *)
Theorem training_step_nothing_recognized self batch batch_idx st :
  Forall (fun batch_ => skipped batch_ = true) batch ->
  training_step self batch batch_idx st = (inr szero, st).
Proof.
  intros Hall. unfold training_step, mbind, M_bind.
  rewrite training_loop_skipped; [reflexivity|].
  apply Forall_forall. intros [j b] Hin. simpl.
  apply enumerate_elem_of in Hin. rewrite Forall_forall in Hall.
  apply Hall. eapply list_elem_of_lookup_2. exact Hin.
Qed.

(** An element whose list of source tags is empty stops the step: on
    reaching it the step raises [IndexError], whatever comes after it in
    the batch. *)
Theorem training_step_no_source_tag self batch batch_idx i batch_ st :
  batch !! i = Some batch_ ->
  sources batch_ = [] ->
  training_step self batch batch_idx st =
  (training_loop self batch (take i (enumerate batch)) [] ≫=
     fun _ => raise IndexError) st
  /\ is_ok (training_step self batch batch_idx st).1 = false.
Proof.
  intros Hb Hnil.
  assert (Heq : training_step self batch batch_idx st =
                (training_loop self batch (take i (enumerate batch)) [] ≫=
                   fun _ => raise IndexError) st).
  { unfold training_step.
    rewrite (enumerate_split batch i batch_ Hb) at 1.
    etrans; [apply bind_run, training_loop_app|].
    rewrite bind_assoc. apply bind_ext. intros losses st'.
    unfold mbind, M_bind. rewrite training_loop_cons, Hnil. reflexivity. }
  split; [exact Heq|]. rewrite Heq. unfold mbind, M_bind.
  destruct (training_loop self batch (take i (enumerate batch)) [] st)
    as [[e|x] st']; reflexivity.
Qed.

Lemma training_loop_weights_recognized self w batch entries :
  (forall i batch_, (i, batch_) ∈ entries -> recognized batch_ = true ->
     w !! i = loss_weights self !! i) ->
  forall losses st,
  training_loop (with_loss_weights w self) batch entries losses st =
  training_loop self batch entries losses st.
Proof.
  induction entries as [|[i batch_] entries IH]; intros Hw losses st.
  - reflexivity.
  - assert (IH' : forall losses st,
               training_loop (with_loss_weights w self) batch entries losses st
               = training_loop self batch entries losses st).
    { apply IH. intros j b Hin. apply (Hw j b). right. exact Hin. }
    specialize (Hw i batch_ (list_elem_of_here _ _)).
    unfold recognized in Hw.
    rewrite !training_loop_cons.
    destruct (sources batch_ !! 0%nat) as [tag|] eqn:Htag;
      [|rewrite (getitem_None _ _ Htag); reflexivity].
    rewrite (getitem_Some _ _ _ Htag), !bind_lift_inr.
    destruct (py_eq tag (TagStr "ImageNet")) eqn:E1.
    { assert (Hi : getitem (loss_weights (with_loss_weights w self)) i
                   = getitem (loss_weights self) i).
      { unfold getitem. simpl. rewrite Hw by reflexivity. reflexivity. }
      rewrite Hi. apply bind_ext. intros w0 st2.
      change (classification (with_loss_weights w self)) with (classification self).
      apply bind_ext. intros l st3. apply IH'. }
    destruct (py_eq tag (TagList ["NeuralData"%string])) eqn:E2.
    { assert (Hi : getitem (loss_weights (with_loss_weights w self)) i
                   = getitem (loss_weights self) i).
      { unfold getitem. simpl. rewrite Hw by reflexivity. reflexivity. }
      rewrite Hi. apply bind_ext. intros w0 st2. apply bind_ext. intros b1 st3.
      change (similarity (with_loss_weights w self)) with (similarity self).
      apply bind_ext. intros l st4. apply IH'. }
    apply IH'.
Qed.

(** The weight at the position of an element the router does not
    recognise is never read: two weight vectors that agree at the
    positions of the recognised elements give the same step, even when one
    of them is too short to have an entry for a passed-over element. *)
Theorem training_step_unused_weights self w batch batch_idx st :
  (forall i batch_, batch !! i = Some batch_ -> recognized batch_ = true ->
     w !! i = loss_weights self !! i) ->
  training_step (with_loss_weights w self) batch batch_idx st
  = training_step self batch batch_idx st.
Proof.
  intros Hw. unfold training_step. apply bind_run.
  apply training_loop_weights_recognized. intros i batch_ Hin Hrec.
  apply (Hw i batch_); [|exact Hrec]. apply enumerate_elem_of. exact Hin.
Qed.

End Training_steps.

(** ** Batches of classification elements *)

Section Classification_batches.
Context `{Framework}.
#[local] Existing Instance M_ret.
#[local] Existing Instance M_bind.

(** On a batch whose elements are all tagged ['ImageNet'], with at least
    as many weights as elements, the step is: classify the elements in
    order, then return the sum, from left to right and starting from 0, of
    weight times loss, the i-th weight going with the i-th element. If one
    classification raises, so does the step, with nothing summed. *)
Theorem training_step_all_imagenet self batch batch_idx st :
  Forall (fun b => sources b !! 0%nat = Some (TagStr "ImageNet")) batch ->
  (length batch <= length (loss_weights self))%nat ->
  training_step self batch batch_idx st =
  (ls ← classify_all self (data <$> batch);
   mret (py_sum (zip_with smul (loss_weights self) ls))) st.
Proof.
  intros Htags Hlen. unfold training_step.
  etrans.
  { apply bind_run.
    apply (training_loop_imagenet self batch batch Htags 0%nat [] st). exact Hlen. }
  rewrite bind_assoc. apply bind_ext. intros ls st1. reflexivity.
Qed.

Lemma classification_logs_once self xy mode st l st' :
  classification self xy mode st = (inr l, st') ->
  length (logged st') = S (length (logged st)).
Proof.
  destruct xy as [X Y]. rewrite classification_outcome. cbv zeta.
  destruct (forward (model self) (inl X)).2 as [e|Y_hat]; [discriminate|].
  destruct (cross_entropy Y_hat Y) as [e|loss]; [discriminate|].
  destruct (topk_correct Y_hat Y 5) as [e|correct]; [discriminate|].
  case_bool_decide; [discriminate|].
  intros Heq. inversion Heq; subst. simpl. rewrite length_app. simpl. lia.
Qed.

Lemma similarity_logs_once self batch region mode st l st' :
  similarity self batch region mode st = (inr l, st') ->
  length (logged st') = S (length (logged st)).
Proof.
  rewrite similarity_outcome. cbv zeta.
  destruct (forward (model self) (inr (sources batch))).2 as [e|out]; [discriminate|].
  destruct (regions st !! region) as [tap|]; [|discriminate].
  destruct (alignment _ _ _) as [e|loss]; [discriminate|].
  intros Heq. inversion Heq; subst. simpl. rewrite length_app. simpl. lia.
Qed.

Lemma training_loop_counts self batch entries :
  forall losses st losses' st',
  training_loop self batch entries losses st = (inr losses', st') ->
  length (logged st') =
    (length (logged st) + length (filter (fun e => recognized e.2 = true) entries))%nat
  /\ length losses' =
     (length losses + length (filter (fun e => recognized e.2 = true) entries))%nat.
Proof.
  induction entries as [|[i batch_] entries IH]; intros losses st losses' st' Hrun.
  - inversion Hrun; subst. simpl. lia.
  - rewrite training_loop_cons in Hrun. rewrite filter_cons.
    change ((i, batch_).2) with batch_.
    destruct (sources batch_ !! 0%nat) as [tag|] eqn:Htag;
      [|rewrite (getitem_None _ _ Htag) in Hrun; discriminate].
    rewrite (getitem_Some _ _ _ Htag), bind_lift_inr in Hrun.
    destruct (py_eq tag (TagStr "ImageNet")) eqn:E1.
    { assert (Hrec : recognized batch_ = true)
        by (unfold recognized; rewrite Htag, E1; reflexivity).
      rewrite decide_True by exact Hrec.
      unfold mbind, M_bind, lift in Hrun.
      destruct (getitem (loss_weights self) i) as [e|w]; [discriminate|].
      destruct (classification self (data batch_) "train" st) as [[e|l] st1] eqn:Hc;
        [discriminate|].
      apply classification_logs_once in Hc.
      apply IH in Hrun as [Hlog Hlen]. rewrite length_app in Hlen. simpl in *. lia. }
    destruct (py_eq tag (TagList ["NeuralData"%string])) eqn:E2.
    { assert (Hrec : recognized batch_ = true)
        by (unfold recognized; rewrite Htag, E1, E2; reflexivity).
      rewrite decide_True by exact Hrec.
      unfold mbind, M_bind, lift in Hrun.
      destruct (getitem (loss_weights self) i) as [e|w]; [discriminate|].
      destruct (getitem batch 1) as [e|b1]; [discriminate|].
      destruct (similarity self b1 "IT" "train" st) as [[e|l] st1] eqn:Hc;
        [discriminate|].
      apply similarity_logs_once in Hc.
      apply IH in Hrun as [Hlog Hlen]. rewrite length_app in Hlen. simpl in *. lia. }
    assert (Hrec : recognized batch_ <> true)
      by (unfold recognized; rewrite Htag, E1, E2; discriminate).
    rewrite decide_False by exact Hrec.
    apply IH in Hrun. exact Hrun.
Qed.

Lemma filter_recognized_imap (batch : list sub_batch)
    (f : nat -> sub_batch -> nat * sub_batch) :
  (forall j b, (f j b).2 = b) ->
  length (filter (fun e : nat * sub_batch => recognized e.2 = true) (imap f batch))
  = length (filter (fun b => recognized b = true) batch).
Proof.
  revert f. induction batch as [|b batch IH]; intros f Hf; [reflexivity|].
  rewrite imap_cons, !filter_cons, Hf.
  specialize (IH (f ∘ S) (fun j b0 => Hf (S j) b0)).
  destruct (decide (recognized b = true)); simpl; rewrite IH; reflexivity.
Qed.

(** A training step that returns a loss has made exactly one call to
    [log_dict] for each element the router recognises, no more and no
    fewer. *)
Theorem training_step_logs_once_per_task self batch batch_idx st v :
  (training_step self batch batch_idx st).1 = inr v ->
  length (logged (training_step self batch batch_idx st).2)
  = (length (logged st) + active_tasks batch)%nat.
Proof.
  unfold training_step, mbind, M_bind.
  destruct (training_loop self batch (enumerate batch) [] st) as [[e|ls] st'] eqn:Hrun;
    [discriminate|].
  intros _. simpl. apply training_loop_counts in Hrun as [Hlog _].
  rewrite Hlog. unfold active_tasks, enumerate. f_equal.
  apply filter_recognized_imap. reflexivity.
Qed.

End Classification_batches.

(** ** Construction *)

Section Construction.
Context `{Framework}.


Lemma hook_regions_ok model inner names :
  _modules model !! "module"%string = Some inner ->
  Forall (fun region => is_Some (_modules inner !! region)) names ->
  forall acc,
  hook_regions model names acc
  = inr (foldl (fun m region => <[region := Hook.init region false]> m) acc names).
Proof.
  intros Hmod. induction 1 as [|region names [sub Hsub] _ IH]; intros acc.
  - reflexivity.
  - simpl. rewrite Hmod, Hsub. apply IH.
Qed.

Lemma foldl_insert_lookup (names : list string) (acc : gmap string (Hook.t tensor)) r :
  foldl (fun m region => <[region := Hook.init region false]> m) acc names !! r
  = if decide (r ∈ names) then Some (Hook.init r false) else acc !! r.
Proof.
  revert acc. induction names as [|n names IH]; intros acc.
  - simpl. destruct (decide (r ∈ [])) as [Hin|_]; [|reflexivity].
    apply elem_of_nil in Hin. contradiction.
  - simpl. rewrite IH.
    destruct (decide (r ∈ names)) as [Hin|Hnin];
      destruct (decide (r ∈ n :: names)) as [Hin'|Hnin']; try reflexivity.
    + exfalso. apply Hnin'. right. exact Hin.
    + apply elem_of_cons in Hin' as [->|Hin']; [|contradiction].
      apply lookup_insert_eq.
    + apply lookup_insert_ne. intros ->. apply Hnin'. left.
Qed.

Lemma hook_regions_missing model names :
  forall acc,
  (names <> [] /\ _modules model !! "module"%string = None ->
   hook_regions model names acc = inl (KeyError "module"))
  /\ (forall inner pre region post,
        _modules model !! "module"%string = Some inner ->
        names = pre ++ region :: post ->
        Forall (fun r => is_Some (_modules inner !! r)) pre ->
        _modules inner !! region = None ->
        hook_regions model names acc = inl (KeyError region)).
Proof.
  intros acc. split.
  - intros [Hne Hmod]. destruct names as [|n names]; [congruence|].
    simpl. rewrite Hmod. reflexivity.
  - intros inner pre region post Hmod -> Hpre Hmiss. revert acc.
    induction Hpre as [|r pre [sub Hsub] _ IH]; intros acc.
    + simpl. rewrite Hmod, Hmiss. reflexivity.
    + simpl. rewrite Hmod, Hsub. apply IH.
Qed.

(** [hook_layers] succeeds exactly when there is nothing to hook, or the
    model has a sub-module ['module'] in which every configured region
    names a sub-module. The table it then returns has one tap per distinct
    region name and no other entry, each registered for the forward pass
    and holding no value yet. *)
Theorem hook_layers_success model hparams :
  (is_ok (hook_layers model hparams) = true <->
   Namespace.regions hparams = []
   \/ exists inner,
        _modules model !! "module"%string = Some inner
        /\ Forall (fun region => is_Some (_modules inner !! region))
             (Namespace.regions hparams))
  /\ (forall taps,
        hook_layers model hparams = inr taps ->
        dom taps = list_to_set (Namespace.regions hparams)
        /\ forall region tap,
             taps !! region = Some tap -> tap = Hook.init region false).
Proof.
  unfold hook_layers.
  assert (Hfwd : forall names acc,
             is_ok (hook_regions model names acc) = true ->
             names = []
             \/ exists inner,
                  _modules model !! "module"%string = Some inner
                  /\ Forall (fun region => is_Some (_modules inner !! region)) names).
  { induction names as [|n names IH]; intros acc Hok; [left; reflexivity|].
    right. simpl in Hok.
    destruct (_modules model !! "module"%string) as [inner|] eqn:Hmod; [|discriminate].
    destruct (_modules inner !! n) as [sub|] eqn:Hsub; [|discriminate].
    exists inner. split; [reflexivity|]. constructor; [eauto|].
    destruct (IH _ Hok) as [->|(inner' & Hmod' & Hall)]; [constructor|].
    assert (inner' = inner) by congruence. subst inner'. exact Hall. }
  assert (Hres : forall taps,
             hook_regions model (Namespace.regions hparams) ∅ = inr taps ->
             taps = foldl (fun m region => <[region := Hook.init region false]> m)
                      ∅ (Namespace.regions hparams)).
  { intros taps Hrun.
    destruct (Hfwd (Namespace.regions hparams) ∅) as [Hnil|(inner & Hmod & Hall)].
    - rewrite Hrun. reflexivity.
    - rewrite Hnil in *. simpl in Hrun. inversion Hrun. reflexivity.
    - rewrite (hook_regions_ok model inner _ Hmod Hall) in Hrun. congruence. }
  split.
  - split; [apply Hfwd|].
    intros [Hnil|(inner & Hmod & Hall)].
    + rewrite Hnil. reflexivity.
    + rewrite (hook_regions_ok model inner _ Hmod Hall). reflexivity.
  - intros taps Hrun. apply Hres in Hrun. subst taps. split.
    + apply set_eq. intros r. rewrite elem_of_dom, foldl_insert_lookup.
      rewrite elem_of_list_to_set.
      destruct (decide (r ∈ Namespace.regions hparams)) as [Hin|Hnin].
      * split; eauto.
      * rewrite lookup_empty. split; [intros [x Hx]; discriminate|tauto].
    + intros region tap. rewrite foldl_insert_lookup.
      destruct (decide (region ∈ Namespace.regions hparams)).
      * congruence.
      * rewrite lookup_empty. discriminate.
Qed.

(** [hook_layers] reports the first thing it misses: [KeyError] on
    ['module'] when there is a region to hook and the model has no
    sub-module of that name, otherwise [KeyError] on the first configured
    region that is not a sub-module of it. *)
Theorem hook_layers_first_missing model hparams :
  (Namespace.regions hparams <> [] ->
   _modules model !! "module"%string = None ->
   hook_layers model hparams = inl (KeyError "module"))
  /\ (forall inner pre region post,
        _modules model !! "module"%string = Some inner ->
        Namespace.regions hparams = pre ++ region :: post ->
        Forall (fun r => is_Some (_modules inner !! r)) pre ->
        _modules inner !! region = None ->
        hook_layers model hparams = inl (KeyError region)).
Proof.
  unfold hook_layers. split.
  - intros Hne Hmod.
    apply (proj1 (hook_regions_missing model (Namespace.regions hparams) ∅)). auto.
  - intros inner pre region post Hmod Hreg Hpre Hmiss.
    apply (proj2 (hook_regions_missing model (Namespace.regions hparams) ∅)
             inner pre region post); assumption.
Qed.

(** What a successful construction establishes: the wrapper keeps the
    hyperparameters it was given, its weights and record-time flag are
    those of the hyperparameters, its model is the one the registry built
    and its loss the one registered under the configured kind; nothing has
    been logged, and every tap is fresh: registered for the forward pass,
    without a stored value. *)
Theorem init_postconditions hparams0 args kwargs self st :
  init hparams0 args kwargs = inr (self, st) ->
  hparams self = hparams0
  /\ loss_weights self = Namespace.loss_weights hparams0
  /\ record_time self = Namespace.record_time hparams0
  /\ get_model (Namespace.arch hparams0) (Namespace.pretrained hparams0) args kwargs
     = inr (model self)
  /\ neural_losses !! Namespace.neural_loss hparams0 = Some (neural_loss self)
  /\ logged st = []
  /\ dom (regions st) = list_to_set (Namespace.regions hparams0)
  /\ (forall region tap,
        regions st !! region = Some tap -> tap = Hook.init region false).
Proof.
  unfold init. intros Hinit.
  destruct (bind_get_model args kwargs) as [e|[args' kwargs']] eqn:Hbind;
    [discriminate|].
  apply bind_get_model_inr in Hbind as (-> & -> & -> & _).
  destruct (get_model _ _ _ _) as [e|net]; [discriminate|].
  destruct (hook_layers net hparams0) as [e|taps] eqn:Hhook; [discriminate|].
  destruct (neural_losses !! Namespace.neural_loss hparams0) as [cls|]; [|discriminate].
  inversion Hinit; subst. simpl.
  destruct (proj2 (hook_layers_success net hparams0) taps Hhook) as [Hdom Hfresh].
  repeat split; try reflexivity; assumption.
Qed.

(** Construction fails in the order it proceeds. A call with a further
    positional argument, or with a keyword that names a parameter
    ([pretrained] and [arch] among them), raises [TypeError] before the
    registry is consulted, whatever the hyperparameters are. For any other
    call: an architecture that is not registered raises [KeyError] on its
    name whatever the regions and the loss kind are; once the model is
    built, a failure to hook the regions comes out whatever the loss kind
    is. An unknown loss kind is therefore reported only for a model that
    was built and hooked. *)
Theorem init_error_order hparams0 args kwargs :
  (args <> [] \/ names_parameter kwargs = true ->
   init hparams0 args kwargs = inl TypeError)
  /\ (names_parameter kwargs = false ->
      (models_dict !! Namespace.arch hparams0 = None ->
       init hparams0 [] kwargs = inl (KeyError (Namespace.arch hparams0)))
      /\ (forall net e,
            get_model (Namespace.arch hparams0) (Namespace.pretrained hparams0)
              [] kwargs = inr net ->
            hook_layers net hparams0 = inl e ->
            init hparams0 [] kwargs = inl e)
      /\ (forall e,
            get_model (Namespace.arch hparams0) (Namespace.pretrained hparams0)
              [] kwargs = inl e ->
            init hparams0 [] kwargs = inl e)).
Proof.
  split.
  - intros Hbad. unfold init, bind_get_model.
    destruct args as [|a args]; [|reflexivity].
    destruct Hbad as [Hargs|Hk]; [congruence|]. rewrite Hk. reflexivity.
  - intros Hk. unfold init. rewrite (bind_get_model_ok kwargs Hk).
    repeat split.
    + intros Hnone. unfold get_model. rewrite Hnone. reflexivity.
    + intros net e Hnet Hhook. rewrite Hnet, Hhook. reflexivity.
    + intros e Hnet. rewrite Hnet. reflexivity.
Qed.

End Construction.

(** ** More on the periodic checkpoint policy *)

Section Checkpoint_paths.
Import Checkpoint.

Lemma lacks_pretty_N_go (c : ascii) (x : N) :
  (forall d, pretty_N_char d <> c) ->
  forall s, lacks c s = true -> lacks c (pretty_N_go x s) = true.
Proof.
  intros Hc. induction (N.lt_wf_0 x) as [x _ IH]. intros s Hs.
  destruct (decide (x = 0)%N) as [->|Hx].
  - rewrite pretty_N_go_0. exact Hs.
  - rewrite pretty_N_go_step by lia. apply IH.
    + apply N.div_lt; lia.
    + simpl. rewrite Hs, bool_decide_eq_false_2 by apply Hc. reflexivity.
Qed.

Lemma lacks_append c s1 s2 :
  lacks c s1 = true -> lacks c s2 = true -> lacks c (s1 +:+ s2) = true.
Proof.
  intros H1 H2. induction s1 as [|c' s1 IH]; [exact H2|].
  simpl in *. apply andb_prop in H1 as [Hc Hs]. rewrite Hc. simpl. auto.
Qed.

Lemma lacks_pretty_Z (c : ascii) (z : Z) :
  (forall d, pretty_N_char d <> c) -> c <> "-"%char -> lacks c (pretty z) = true.
Proof.
  intros Hc Hdash.
  assert (HN : forall n : N, lacks c (pretty n) = true).
  { intros n. unfold pretty, pretty_N. case_decide.
    - simpl. rewrite bool_decide_eq_false_2; [reflexivity|]. apply (Hc 0%N).
    - apply lacks_pretty_N_go; [exact Hc|reflexivity]. }
  destruct z as [|p|p].
  - apply (HN 0%N).
  - apply (HN (N.pos p)).
  - change (pretty (Z.neg p)) with ("-" +:+ pretty (N.pos p))%string.
    apply lacks_append; [|apply HN].
    simpl. rewrite bool_decide_eq_false_2 by congruence. reflexivity.
Qed.

Lemma digit_not_underscore d : pretty_N_char d <> "_"%char.
Proof. unfold pretty_N_char. repeat case_match; discriminate. Qed.

Lemma digit_not_dot d : pretty_N_char d <> "."%char.
Proof. unfold pretty_N_char. repeat case_match; discriminate. Qed.

Lemma split_at_char c s1 :
  forall s2 t1 t2,
  lacks c s1 = true -> lacks c s2 = true ->
  (s1 +:+ String c t1 = s2 +:+ String c t2)%string -> s1 = s2 /\ t1 = t2.
Proof.
  induction s1 as [|a s1 IH]; intros [|b s2] t1 t2 H1 H2 Heq; simpl in *.
  - inversion Heq. auto.
  - inversion Heq; subst. rewrite bool_decide_eq_true_2 in H2 by reflexivity.
    discriminate.
  - inversion Heq; subst. rewrite bool_decide_eq_true_2 in H1 by reflexivity.
    discriminate.
  - inversion Heq; subst.
    apply andb_prop in H1 as [_ H1]. apply andb_prop in H2 as [_ H2].
    destruct (IH s2 t1 t2 H1 H2) as [-> ->]; auto.
Qed.

Lemma path_join_prefixed_inj d p s s' :
  path_join d (p +:+ "_" +:+ s) = path_join d (p +:+ "_" +:+ s') -> s = s'.
Proof.
  unfold path_join.
  assert (Hs : starts_with_slash (p +:+ "_" +:+ s)
               = starts_with_slash (p +:+ "_" +:+ s'))
    by (destruct p; reflexivity).
  rewrite Hs. destruct (starts_with_slash (p +:+ "_" +:+ s')).
  - intros Heq. apply (inj (String.app p)) in Heq.
    apply (inj (String.app "_")) in Heq. exact Heq.
  - destruct (bool_decide (d = ""%string) || ends_with_slash d); intros Heq.
    + apply (inj (String.app d)) in Heq. apply (inj (String.app p)) in Heq.
      apply (inj (String.app "_")) in Heq. exact Heq.
    + apply (inj (String.app d)) in Heq. apply (inj (String.app "/")) in Heq.
      apply (inj (String.app p)) in Heq.
      apply (inj (String.app "_")) in Heq. exact Heq.
Qed.

(** When the callback names its checkpoints itself
    ([use_modelcheckpoint_filename=False]), the path tells epoch and step
    apart: under one checkpoint directory and one prefix, two checkpoints
    get the same path only if they are taken at the same epoch and the
    same global step, so no checkpoint of another step is overwritten. *)
Theorem ckpt_path_own_name_injective self t1 t2 :
  use_modelcheckpoint_filename self = false ->
  dirpath (checkpoint_callback t1) = dirpath (checkpoint_callback t2) ->
  ckpt_path self t1 = ckpt_path self t2 ->
  current_epoch t1 = current_epoch t2 /\ global_step t1 = global_step t2.
Proof.
  intros Huse Hdir. unfold ckpt_path. rewrite Huse, Hdir. cbv zeta.
  intros Heq. apply path_join_prefixed_inj in Heq.
  change (pretty (current_epoch t1) +:+ String "_" (pretty (global_step t1) +:+ ".ckpt")
          = pretty (current_epoch t2) +:+ String "_" (pretty (global_step t2) +:+ ".ckpt"))%string
    in Heq.
  apply split_at_char in Heq as [He Hg];
    try (apply lacks_pretty_Z; [apply digit_not_underscore|discriminate]).
  split; [apply (inj pretty); exact He|].
  change (pretty (global_step t1) +:+ String "." "ckpt"
          = pretty (global_step t2) +:+ String "." "ckpt")%string in Hg.
  apply split_at_char in Hg as [Hg _];
    try (apply lacks_pretty_Z; [apply digit_not_dot|discriminate]).
  apply (inj pretty). exact Hg.
Qed.

(** When the callback takes the name from the [ModelCheckpoint] callback
    (the default), every checkpoint it writes in a run goes to one and the
    same path, the callback's directory joined with its file name: each
    periodic checkpoint replaces the one before. *)
Theorem run_steps_one_path self trainer steps :
  use_modelcheckpoint_filename self = true ->
  save_step_frequency self <> 0 ->
  exists trainer',
    run_steps self trainer steps = inr trainer'
    /\ saved trainer' =
       saved trainer ++
       replicate (length (filter (fun k => (save_step_frequency self | k)) steps))
         (path_join (dirpath (checkpoint_callback trainer))
            (filename (checkpoint_callback trainer))).
Proof.
  intros Huse HN.
  destruct (run_steps_saved self steps HN trainer) as (t' & Hrun & _ & _ & Hs).
  exists t'. split; [exact Hrun|]. rewrite Hs. f_equal.
  rewrite (list_filter_iff _ (fun k => (save_step_frequency self | k)))
    by (intros k; rewrite Z.mod_divide by assumption; reflexivity).
  apply const_fmap. intros k. unfold ckpt_path. rewrite Huse. reflexivity.
Qed.

Lemma multiples_below (N : Z) (n : nat) :
  0 < N ->
  Z.of_nat (length (filter (fun k => k `mod` N = 0) (seqZ 0 (Z.of_nat n))))
  = (Z.of_nat n + N - 1) `div` N.
Proof.
  intros HN. induction n as [|n IH].
  - simpl. symmetry. apply Z.div_small. lia.
  - rewrite seqZ_S, filter_app, length_app, Nat2Z.inj_add, IH.
    rewrite filter_cons, filter_nil. rewrite Z.add_0_l.
    pose proof (Z.div_mod (Z.of_nat n) N ltac:(lia)) as Hd.
    pose proof (Z.mod_pos_bound (Z.of_nat n) N HN) as Hb.
    rewrite Nat2Z.inj_succ.
    destruct (decide (Z.of_nat n `mod` N = 0)) as [Hm|Hm]; simpl length.
    + rewrite <- (Z.div_unique (Z.of_nat n + N - 1) N (Z.of_nat n `div` N) (N - 1))
        by lia.
      rewrite <- (Z.div_unique (Z.succ (Z.of_nat n) + N - 1) N
                    (Z.of_nat n `div` N + 1) 0) by lia.
      lia.
    + rewrite <- (Z.div_unique (Z.of_nat n + N - 1) N (Z.of_nat n `div` N + 1)
                    (Z.of_nat n `mod` N - 1)) by lia.
      rewrite <- (Z.div_unique (Z.succ (Z.of_nat n) + N - 1) N
                    (Z.of_nat n `div` N + 1) (Z.of_nat n `mod` N)) by lia.
      lia.
Qed.

(** With a positive frequency [N], a run that completes the steps 0 to
    [n - 1] in order, calling the callback after each, writes the ceiling
    of [n / N] checkpoints. *)
Theorem run_steps_count self trainer (n : nat) :
  0 < save_step_frequency self ->
  exists trainer',
    run_steps self trainer (seqZ 0 (Z.of_nat n)) = inr trainer'
    /\ Z.of_nat (length (saved trainer'))
       = Z.of_nat (length (saved trainer))
         + (Z.of_nat n + save_step_frequency self - 1) `div` save_step_frequency self.
Proof.
  intros HN.
  destruct (run_steps_saved self (seqZ 0 (Z.of_nat n)) ltac:(lia) trainer)
    as (t' & Hrun & _ & _ & Hs).
  exists t'. split; [exact Hrun|].
  rewrite Hs, length_app, length_fmap, Nat2Z.inj_add, multiples_below by exact HN.
  reflexivity.
Qed.

(** The sign of the frequency does not matter: as Python's [%] takes the
    sign of the divisor, the callback with frequency [-N] writes at the
    same steps, and the same checkpoints, as with [N]. *)
Theorem on_batch_end_negative_frequency self trainer :
  on_batch_end (with_frequency (- save_step_frequency self) self) trainer
  = on_batch_end self trainer.
Proof.
  unfold on_batch_end, with_frequency, ckpt_path. simpl.
  destruct (decide (save_step_frequency self = 0)) as [H0|H0].
  - rewrite !bool_decide_eq_true_2 by lia. reflexivity.
  - rewrite (bool_decide_eq_false_2 (- save_step_frequency self = 0)) by lia.
    rewrite (bool_decide_eq_false_2 (save_step_frequency self = 0)) by lia.
    rewrite (bool_decide_ext
               (global_step trainer `mod` (- save_step_frequency self) = 0)
               (global_step trainer `mod` save_step_frequency self = 0)).
    + reflexivity.
    + rewrite !Z.mod_divide by lia. apply Z.divide_opp_l.
Qed.

(** The callback touches nothing but the store: when [on_batch_end]
    returns, epoch, step counter and checkpoint callback are as before and
    the store has at most one path more, added at the end. With frequency
    0 it does not return: it raises [ZeroDivisionError] at every step and
    writes nothing. *)
Theorem on_batch_end_frame self trainer :
  (forall trainer',
      on_batch_end self trainer = inr trainer' ->
      current_epoch trainer' = current_epoch trainer
      /\ global_step trainer' = global_step trainer
      /\ checkpoint_callback trainer' = checkpoint_callback trainer
      /\ (saved trainer' = saved trainer
          \/ saved trainer' = saved trainer ++ [ckpt_path self trainer]))
  /\ (save_step_frequency self = 0 ->
      on_batch_end self trainer = inl ZeroDivisionError).
Proof.
  unfold on_batch_end. split.
  - intros trainer'. case_bool_decide; [discriminate|].
    case_bool_decide; intros Heq; inversion Heq; subst; simpl; auto.
  - intros H0. rewrite bool_decide_eq_true_2 by exact H0. reflexivity.
Qed.

End Checkpoint_paths.

(** ** More on the activation tap *)

(** A hook remembers the last call and nothing else. Firing for one run of
    calls and then for another is firing for the two runs on end; the
    registration handle never changes; and after a call the hook is the
    same whatever it held and whatever calls came before. The module and
    the input handed to [hook_fn] play no part in what is stored. *)
Theorem hook_fire_last_call_only {T} (module : string) (h : Hook.t T) :
  (forall calls1 calls2,
      Hook.fire module h (calls1 ++ calls2)
      = Hook.fire module (Hook.fire module h calls1) calls2)
  /\ (forall calls, Hook.hook (Hook.fire module h calls) = Hook.hook h)
  /\ (forall h' module' calls calls' input input' out,
        Hook.hook h' = Hook.hook h ->
        Hook.fire module h (calls ++ [(input, out)])
        = Hook.fire module' h' (calls' ++ [(input', out)])).
Proof.
  split; [|split].
  - intros calls1 calls2. unfold Hook.fire. apply foldl_app.
  - intros calls. apply fire_hook.
  - intros h' module' calls calls' input input' out Hh.
    assert (Happ : forall m (g : Hook.t T) cs c,
               Hook.fire m g (cs ++ [c])
               = Hook.hook_fn (Hook.fire m g cs) m c.1 c.2).
    { intros m g cs c. unfold Hook.fire. rewrite foldl_app. reflexivity. }
    rewrite !Happ. unfold Hook.hook_fn. simpl. f_equal.
    rewrite !fire_hook. auto.
Qed.

(** ** The further properties on concrete inputs *)

Section Concrete_steps.
Import Demo.
#[local] Existing Instance M_ret.
#[local] Existing Instance M_bind.

Lemma validation_step_first_element_witness :
  validation_step (wrapper [1; 1]%Q)
    [tagged "CIFAR" 0 1; tagged "ImageNet" 0 3] 0 None "val" fresh
  = (inl TypeError, fresh)
  /\ validation_step (wrapper [1; 1]%Q)
       [list_tagged ["NeuralData"%string] 1 4] 0 None "val" fresh
     = (inl (NameError "region"), fresh)
  /\ validation_step (wrapper [1; 1]%Q)
       [untagged 0 0] 0 None "val" fresh
     = (inl IndexError, fresh)
  /\ validation_step (wrapper [1; 1]%Q) [tagged "CIFAR" 0 1] 0 None "val" fresh
     = (inr szero, fresh).
Proof.
  split; [|split; [|split]].
  - apply (proj1 (proj1 (validation_step_first_element (wrapper [1; 1]%Q)
                           [tagged "CIFAR" 0 1; tagged "ImageNet" 0 3]
                           0 None "val" fresh)
                    1%nat (tagged "ImageNet" 0 3) eq_refl
                    ltac:(repeat constructor))).
    reflexivity.
  - apply (proj1 (proj2 (proj1 (validation_step_first_element (wrapper [1; 1]%Q)
                                  [list_tagged ["NeuralData"%string] 1 4]
                                  0 None "val" fresh)
                           0%nat (list_tagged ["NeuralData"%string] 1 4) eq_refl
                           ltac:(constructor)))).
    reflexivity.
  - apply (proj2 (proj2 (proj1 (validation_step_first_element (wrapper [1; 1]%Q)
                                  [untagged 0 0]
                                  0 None "val" fresh)
                           0%nat (untagged 0 0) eq_refl
                           ltac:(constructor)))).
    reflexivity.
  - apply (proj2 (validation_step_first_element (wrapper [1; 1]%Q)
                    [tagged "CIFAR" 0 1] 0 None "val" fresh)).
    repeat constructor.
Defined.

Lemma training_step_nothing_recognized_witness :
  training_step (wrapper []) [tagged "CIFAR" 0 1; tagged "NeuralData" 1 4] 0 fresh
  = (inr szero, fresh).
Proof.
  apply (training_step_nothing_recognized (wrapper [])
           [tagged "CIFAR" 0 1; tagged "NeuralData" 1 4] 0 fresh).
  repeat constructor.
Defined.

Lemma training_step_no_source_tag_witness :
  training_step (wrapper [2; 1]%Q)
    [tagged "ImageNet" 0 3; untagged 1 4] 0 fresh
  = (training_loop (wrapper [2; 1]%Q)
       [tagged "ImageNet" 0 3; untagged 1 4]
       [(0%nat, tagged "ImageNet" 0 3)] [] ≫= fun _ => raise IndexError) fresh
  /\ is_ok (training_step (wrapper [2; 1]%Q)
              [tagged "ImageNet" 0 3; untagged 1 4] 0 fresh).1
     = false.
Proof.
  apply (training_step_no_source_tag (wrapper [2; 1]%Q)
           [tagged "ImageNet" 0 3; untagged 1 4] 0
           1%nat (untagged 1 4) fresh); reflexivity.
Defined.

Lemma training_step_unused_weights_witness :
  training_step (with_loss_weights [2%Q] (wrapper [2; 9; 1]%Q))
    [tagged "ImageNet" 0 3; tagged "CIFAR" 1 4] 0 fresh
  = training_step (wrapper [2; 9; 1]%Q)
      [tagged "ImageNet" 0 3; tagged "CIFAR" 1 4] 0 fresh.
Proof.
  apply (training_step_unused_weights (wrapper [2; 9; 1]%Q) [2%Q]
           [tagged "ImageNet" 0 3; tagged "CIFAR" 1 4] 0 fresh).
  intros [|[|i]] batch_ Hb Hrec.
  - reflexivity.
  - inversion Hb; subst. discriminate Hrec.
  - discriminate Hb.
Defined.

Lemma training_step_all_imagenet_witness :
  training_step (wrapper [2; 1; 7]%Q)
    [tagged "ImageNet" 0 3; tagged "ImageNet" 1 4] 0 fresh
  = (ls ← classify_all (wrapper [2; 1; 7]%Q) [(0, 3); (1, 4)];
     mret (py_sum (zip_with smul [2; 1; 7]%Q ls))) fresh.
Proof.
  apply (training_step_all_imagenet (wrapper [2; 1; 7]%Q)
           [tagged "ImageNet" 0 3; tagged "ImageNet" 1 4] 0 fresh).
  - repeat constructor.
  - simpl. lia.
Defined.

Lemma training_step_logs_once_per_task_witness :
  length (logged (training_step (wrapper [2; 1; 7]%Q)
                    [tagged "ImageNet" 0 3; tagged "CIFAR" 5 5;
                     tagged "ImageNet" 1 4] 0 fresh).2)
  = (length (logged fresh)
     + active_tasks [tagged "ImageNet" 0 3; tagged "CIFAR" 5 5;
                     tagged "ImageNet" 1 4])%nat.
Proof.
  apply (training_step_logs_once_per_task (wrapper [2; 1; 7]%Q)
           [tagged "ImageNet" 0 3; tagged "CIFAR" 5 5; tagged "ImageNet" 1 4]
           0 fresh (34 # 1)%Q).
  vm_compute. reflexivity.
Defined.

Lemma init_postconditions_witness :
  hparams default_wrapper = Namespace.defaults
  /\ loss_weights default_wrapper = Namespace.loss_weights Namespace.defaults
  /\ record_time default_wrapper = Namespace.record_time Namespace.defaults
  /\ get_model (Namespace.arch Namespace.defaults)
       (Namespace.pretrained Namespace.defaults) [] ∅
     = inr (model default_wrapper)
  /\ neural_losses !! Namespace.neural_loss Namespace.defaults
     = Some (neural_loss default_wrapper)
  /\ logged fresh = []
  /\ dom (regions fresh) = list_to_set (Namespace.regions Namespace.defaults)
  /\ (forall region tap,
        regions fresh !! region = Some tap -> tap = Hook.init region false).
Proof.
  apply (init_postconditions Namespace.defaults [] ∅ default_wrapper fresh).
  vm_compute. reflexivity.
Defined.

End Concrete_steps.

Section Concrete_construction.
#[local] Existing Instance Lab.framework | 0.


Lemma hook_layers_success_witness :
  is_ok (@hook_layers Lab.framework true (Lab.hparams_of "cornet_s" ["IT"; "V4"; "IT"]%string "CKA"))
  = true
  /\ dom (<["V4"%string := Hook.init "V4" false]>
           (<["IT"%string := Hook.init "IT" false]> (∅ : gmap string (Hook.t Z))))
     = list_to_set ["IT"; "V4"; "IT"]%string.
Proof.
  pose proof (@hook_layers_success Lab.framework true
                (Lab.hparams_of "cornet_s" ["IT"; "V4"; "IT"]%string "CKA"))
    as [Hiff Hdom].
  split.
  - apply Hiff. right. exists true. split; [reflexivity|].
    repeat constructor; eexists; reflexivity.
  - apply (Hdom (<["V4"%string := Hook.init "V4" false]>
                   (<["IT"%string := Hook.init "IT" false]> ∅))).
    vm_compute. reflexivity.
Defined.

Lemma hook_layers_first_missing_witness :
  @hook_layers Lab.framework false (Lab.hparams_of "resnet18" ["IT"%string] "CKA")
  = inl (KeyError "module")
  /\ @hook_layers Lab.framework true (Lab.hparams_of "cornet_s" ["IT"; "V9"; "V4"]%string "CKA")
     = inl (KeyError "V9").
Proof.
  split.
  - apply (proj1 (@hook_layers_first_missing Lab.framework false
                    (Lab.hparams_of "resnet18" ["IT"%string] "CKA"))).
    + discriminate.
    + reflexivity.
  - apply (proj2 (@hook_layers_first_missing Lab.framework true
                    (Lab.hparams_of "cornet_s" ["IT"; "V9"; "V4"]%string "CKA"))
             true ["IT"%string] "V9"%string ["V4"%string]).
    + reflexivity.
    + reflexivity.
    + repeat constructor. eexists. reflexivity.
    + reflexivity.
Defined.

Lemma init_error_order_witness :
  @init Lab.framework (Lab.hparams_of "cornet_s" ["IT"%string] "CKA") [tt] ∅
  = inl TypeError
  /\ @init Lab.framework (Lab.hparams_of "vgg" ["V9"%string] "cosine") []
       (<["pretrained"%string := None]> ∅)
     = inl TypeError
  /\ @init Lab.framework (Lab.hparams_of "vgg" ["V9"%string] "cosine") [] ∅
     = inl (KeyError "vgg")
  /\ @init Lab.framework (Lab.hparams_of "cornet_s" ["V9"%string] "cosine") [] ∅
     = inl (KeyError "V9")
  /\ @init Lab.framework (Lab.hparams_of "resnet18" ["IT"%string] "cosine") []
       (<["width"%string := Some tt]> ∅)
     = inl (KeyError "module").
Proof.
  assert (Hk : @names_parameter Lab.framework ∅ = false)
    by (vm_compute; reflexivity).
  assert (Hw : @names_parameter Lab.framework (<["width"%string := Some tt]> ∅)
               = false)
    by (vm_compute; reflexivity).
  split; [|split; [|split; [|split]]].
  - apply (proj1 (@init_error_order Lab.framework
                    (Lab.hparams_of "cornet_s" ["IT"%string] "CKA") [tt] ∅)).
    left. discriminate.
  - apply (proj1 (@init_error_order Lab.framework
                    (Lab.hparams_of "vgg" ["V9"%string] "cosine") []
                    (<["pretrained"%string := None]> ∅))).
    right. vm_compute. reflexivity.
  - apply (proj1 (proj2 (@init_error_order Lab.framework
                           (Lab.hparams_of "vgg" ["V9"%string] "cosine") [] ∅)
                    Hk)).
    reflexivity.
  - apply (proj1 (proj2 (proj2 (@init_error_order Lab.framework
                                  (Lab.hparams_of "cornet_s" ["V9"%string] "cosine")
                                  [] ∅)
                           Hk))
             true (KeyError "V9")); reflexivity.
  - apply (proj1 (proj2 (proj2 (@init_error_order Lab.framework
                                  (Lab.hparams_of "resnet18" ["IT"%string] "cosine")
                                  [] (<["width"%string := Some tt]> ∅))
                           Hw))
             false (KeyError "module")); reflexivity.
Defined.

End Concrete_construction.

Section Concrete_checkpoints.
Import Checkpoint.

Lemma ckpt_path_own_name_injective_witness :
  current_epoch (at_step Demo.trainer0 5) = current_epoch (at_step Demo.trainer0 5)
  /\ global_step (at_step Demo.trainer0 5) = global_step (at_step Demo.trainer0 5).
Proof.
  apply (ckpt_path_own_name_injective (init 5 None (Some false))
           (at_step Demo.trainer0 5) (at_step Demo.trainer0 5));
    reflexivity.
Defined.

Lemma run_steps_one_path_witness :
  exists trainer',
    run_steps (init 2 None None) Demo.trainer0 [0; 1; 2; 3; 4] = inr trainer'
    /\ saved trainer' =
       saved Demo.trainer0 ++
       replicate (length (filter (fun k => (2 | k)) [0; 1; 2; 3; 4]))
         (path_join "ckpts" "last.ckpt").
Proof.
  apply (run_steps_one_path (init 2 None None) Demo.trainer0 [0; 1; 2; 3; 4]).
  - reflexivity.
  - simpl. lia.
Defined.

Lemma run_steps_count_witness :
  exists trainer',
    run_steps (init 5 None None) Demo.trainer0 (seqZ 0 (Z.of_nat 21)) = inr trainer'
    /\ Z.of_nat (length (saved trainer'))
       = Z.of_nat (length (saved Demo.trainer0)) + (Z.of_nat 21 + 5 - 1) `div` 5.
Proof.
  apply (run_steps_count (init 5 None None) Demo.trainer0 21).
  simpl. lia.
Defined.

Lemma on_batch_end_frame_witness :
  (current_epoch (save_checkpoint (at_step Demo.trainer0 10) "ckpts/last.ckpt")
   = current_epoch (at_step Demo.trainer0 10)
   /\ global_step (save_checkpoint (at_step Demo.trainer0 10) "ckpts/last.ckpt")
      = global_step (at_step Demo.trainer0 10)
   /\ checkpoint_callback (save_checkpoint (at_step Demo.trainer0 10) "ckpts/last.ckpt")
      = checkpoint_callback (at_step Demo.trainer0 10)
   /\ (saved (save_checkpoint (at_step Demo.trainer0 10) "ckpts/last.ckpt")
       = saved (at_step Demo.trainer0 10)
       \/ saved (save_checkpoint (at_step Demo.trainer0 10) "ckpts/last.ckpt")
          = saved (at_step Demo.trainer0 10)
            ++ [ckpt_path (init 5 None None) (at_step Demo.trainer0 10)]))
  /\ on_batch_end (init 0 None None) (at_step Demo.trainer0 10)
     = inl ZeroDivisionError.
Proof.
  split.
  - apply (proj1 (on_batch_end_frame (init 5 None None) (at_step Demo.trainer0 10))).
    reflexivity.
  - apply (proj2 (on_batch_end_frame (init 0 None None) (at_step Demo.trainer0 10))).
    reflexivity.
Defined.

Lemma hook_fire_last_call_only_witness :
  Hook.fire "IT" (Hook.init "IT" false) ([(1, 2); (3, 4)] ++ [(5, 6)])
  = Hook.fire "V4" (Hook.hook_fn (Hook.init "IT" false) "IT" 8 9) ([] ++ [(7, 6)]).
Proof.
  apply (proj2 (proj2 (hook_fire_last_call_only "IT" (Hook.init (T := Z) "IT" false)))
           (Hook.hook_fn (Hook.init "IT" false) "IT" 8 9) "V4"
           [(1, 2); (3, 4)] [] 5 7 6).
  reflexivity.
Defined.

End Concrete_checkpoints.
